(** * pdfquicktext: the content-stream editing session of [writer.py]

    A shallow embedding of [src/pdfquicktext/writer.py].  The session object
    [PDFFactory] is mutated in place by its methods and keeps every mutation
    made before an exception is raised, so a method is a function from the
    session to an outcome (a value or a raised exception) paired with the
    session it leaves behind.  Python [float] is IEEE binary64, which is what
    Rocq's primitive [float] computes with. *)

From Stdlib Require Import ZArith Floats.PrimFloat Floats.SpecFloat Floats.FloatOps.
From stdpp Require Import base option list gmap strings.

#[local] Set Warnings "-inexact-float".
#[local] Open Scope string_scope.
#[local] Open Scope list_scope.

(** ** Values handed to and from the PDF object model *)

Abbreviation bytes := (list Byte.byte).

(** [class BaseFont(Enum)], lines 8-22: fourteen members, each with a value. *)
Inductive BaseFont :=
| courier | courierbold | courierboldoblique | courieroblique
| helvetica | helveticabold | helveticaboldoblique | helveticaoblique
| timesroman | timesbold | timesitalic | timesbolditalic
| symbol | zapfdingbats.

Definition members : list BaseFont :=
  [courier; courierbold; courierboldoblique; courieroblique;
   helvetica; helveticabold; helveticaboldoblique; helveticaoblique;
   timesroman; timesbold; timesitalic; timesbolditalic;
   symbol; zapfdingbats].

(** The member's name, as written on the left of [=] in the class body. *)
Definition name (f : BaseFont) : string :=
  match f with
  | courier => "courier"
  | courierbold => "courierbold"
  | courierboldoblique => "courierboldoblique"
  | courieroblique => "courieroblique"
  | helvetica => "helvetica"
  | helveticabold => "helveticabold"
  | helveticaboldoblique => "helveticaboldoblique"
  | helveticaoblique => "helveticaoblique"
  | timesroman => "timesroman"
  | timesbold => "timesbold"
  | timesitalic => "timesitalic"
  | timesbolditalic => "timesbolditalic"
  | symbol => "symbol"
  | zapfdingbats => "zapfdingbats"
  end.

(** The member's value: the PostScript name of the base font. *)
Definition value (f : BaseFont) : string :=
  match f with
  | courier => "/Courier"
  | courierbold => "/Courier-Bold"
  | courierboldoblique => "/Courier-BoldOblique"
  | courieroblique => "/Courier-Oblique"
  | helvetica => "/Helvetica"
  | helveticabold => "/Helvetica-Bold"
  | helveticaboldoblique => "/Helvetica-BoldOblique"
  | helveticaoblique => "/Helvetica-Oblique"
  | timesroman => "/Times-Roman"
  | timesbold => "/Times-Bold"
  | timesitalic => "/Times-Italic"
  | timesbolditalic => "/Times-BoldItalic"
  | symbol => "/Symbol"
  | zapfdingbats => "/ZapfDingbats"
  end.

(** [BaseFont[key]]: lookup of a member by name; [None] stands for the
    [KeyError] the enum raises. *)
Definition BaseFont_getitem (key : string) : option BaseFont :=
  find (fun f => String.eqb (name f) key) members.

(** The [font] parameter is annotated [Union[str, BaseFont]]. *)
Inductive font_arg :=
| FontStr (key : string)
| FontEnum (f : BaseFont).

(** An operand of a content-stream instruction, as the source builds them:
    [None], an [int], a [float], a [pikepdf.Name], a [pikepdf.String]. *)
Inductive operand :=
| ONone
| OInt (z : Z)
| OReal (f : float)
| OName (n : string)
| OString (s : string).

(** [pikepdf.ContentStreamInstruction(operands, operator)]. *)
Record ContentStreamInstruction := CSI {
  operands : list operand;
  operator : string
}.

(** [pikepdf.Dictionary(Type=..., Subtype=..., BaseFont=...)], lines 58-62. *)
Record font_dict := {
  Type_ : string;
  Subtype_ : string;
  BaseFont_ : string
}.

(** A number read from a PDF array: the collaborator hands an integer over
    as a Python [int] and a real as a [decimal.Decimal], here its digits
    and its power of ten. *)
Inductive pynum :=
| PyInt (z : Z)
| PyDecimal (digits exponent : Z).

Coercion PyInt : Z >-> pynum.

(* The expected type reaches the components of a tuple, so that an integer
   written where a number is expected is read as a [PyInt]. *)
#[local] Arguments pair {A B} & a b.
#[local] Arguments Some {A} & a.

(** What a page holds under [/Contents]: a content stream, or a PDF string,
    which is what assigning Python [bytes] stores. *)
Inductive contents :=
| Stream (data : bytes)
| PdfString (data : bytes).

(** A page of the document: its media box when it declares one (four
    numbers), the font dictionary of its resources when there is one, and
    what it holds under [/Contents]. *)
Record page := {
  MediaBox : option (pynum * pynum * pynum * pynum);
  Font : option (gmap string font_dict);
  Contents : contents
}.

(** The parsed document: its pages and the pool of indirect objects that
    [make_indirect] adds to. *)
Record document := {
  pages : list page;
  indirect_objects : list font_dict
}.

(** ** Exceptions *)

(** The pieces of the f-string on line 52. *)
Inductive fragment :=
| FLit (s : string)          (* literal text *)
| FRepr (s : string).        (* [{s!r}] *)

Inductive exn :=
| AttributeError (attr : string)
| KeyError (msg : list fragment)
| IndexError
| TypeError
| ValueError
| UnicodeDecodeError
| OverflowError
| PDFQuickTextError (msg : string)
| PdfError                   (* raised inside the collaborator's codec *)
| BadReference.              (* model only: a page reference outside the
                                document, which no Python run produces *)

Inductive result (A : Type) :=
| Ok (a : A)
| Raise (e : exn).
Arguments Ok {A} & a.
Arguments Raise {A} e.

(** ** The collaborator

    What the code calls in [pikepdf] and cannot be read from this
    repository: opening a document from bytes, decoding a page's content
    stream and encoding an instruction list.  [None] is a failure of the
    collaborator. *)
Class Pikepdf := {
  pikepdf_open : bytes -> option document;
  parse_content_stream : page -> option (list ContentStreamInstruction);
  unparse_content_stream : list ContentStreamInstruction -> option bytes
}.

(** ** The session object *)

(** The five attributes assigned in [__init__].  [page_object] is a
    reference to a page of [pdf_object] (its position in [pages]): the page
    is shared with the document, not copied. *)
Record PDFFactory := {
  pdf_bytes : bytes;
  pdf_object : document;
  page_object : option nat;
  _current_page : option Z;
  _page_instructions : option (list ContentStreamInstruction)
}.

(** A method: session in, outcome and session out. *)
Definition M (A : Type) : Type := PDFFactory -> result A * PDFFactory.

Definition ret {A} (a : A) : M A := fun s => (Ok a, s).
Definition raise {A} (e : exn) : M A := fun s => (Raise e, s).
Definition bind {A B} (m : M A) (k : A -> M B) : M B :=
  fun s =>
    match m s with
    | (Ok a, s') => k a s'
    | (Raise e, s') => (Raise e, s')
    end.

Declare Scope py_scope.
Delimit Scope py_scope with py.
Notation "x <- c1 ;; c2" := (bind c1 (fun x => c2))
  (at level 100, c1 at next level, right associativity) : py_scope.
Notation "c1 ;; c2" := (bind c1 (fun _ => c2))
  (at level 100, right associativity) : py_scope.
#[local] Open Scope py_scope.

Definition get {A} (field : PDFFactory -> A) : M A := fun s => (Ok (field s), s).

Definition set_page_object (v : option nat) : M unit := fun s =>
  (Ok tt, {| pdf_bytes := pdf_bytes s; pdf_object := pdf_object s;
             page_object := v; _current_page := _current_page s;
             _page_instructions := _page_instructions s |}).

Definition set__current_page (v : option Z) : M unit := fun s =>
  (Ok tt, {| pdf_bytes := pdf_bytes s; pdf_object := pdf_object s;
             page_object := page_object s; _current_page := v;
             _page_instructions := _page_instructions s |}).

Definition set__page_instructions (v : option (list ContentStreamInstruction)) : M unit :=
  fun s =>
  (Ok tt, {| pdf_bytes := pdf_bytes s; pdf_object := pdf_object s;
             page_object := page_object s; _current_page := _current_page s;
             _page_instructions := v |}).

Definition set_pdf_object (d : document) : M unit := fun s =>
  (Ok tt, {| pdf_bytes := pdf_bytes s; pdf_object := d;
             page_object := page_object s; _current_page := _current_page s;
             _page_instructions := _page_instructions s |}).

(** [self.page_object.<attr>]: on [None] the attribute access raises
    [AttributeError]; otherwise the page the reference points to. *)
Definition self_page (attr : string) : M page := fun s =>
  match page_object s with
  | None => (Raise (AttributeError attr), s)
  | Some r =>
      match pages (pdf_object s) !! r with
      | Some pg => (Ok pg, s)
      | None => (Raise BadReference, s)
      end
  end.

(** A mutation of the page behind [self.page_object]; it is seen through
    [pdf_object] as well. *)
Definition update_self_page (attr : string) (f : page -> page) : M unit := fun s =>
  match page_object s with
  | None => (Raise (AttributeError attr), s)
  | Some r =>
      match pages (pdf_object s) !! r with
      | Some _ =>
          (Ok tt,
           {| pdf_bytes := pdf_bytes s;
              pdf_object :=
                {| pages := alter f r (pages (pdf_object s));
                   indirect_objects := indirect_objects (pdf_object s) |};
              page_object := page_object s;
              _current_page := _current_page s;
              _page_instructions := _page_instructions s |})
      | None => (Raise BadReference, s)
      end
  end.

(** [self.pdf_object.make_indirect(obj)]: the object joins the document's
    pool; the source drops the returned handle. *)
Definition make_indirect (obj : font_dict) : M unit :=
  d <- get pdf_object ;;
  set_pdf_object {| pages := pages d;
                    indirect_objects := indirect_objects d ++ [obj] |}.

(** [self.page_object.add_resource(res, Name.Font, name)]: the entry [name]
    of the page's font dictionary becomes [res]; a page without a font
    dictionary gets one. *)
Definition add_resource (res : font_dict) (res_name : string) : M unit :=
  update_self_page "add_resource"
    (fun pg => {| MediaBox := MediaBox pg;
                  Font := Some (<[res_name := res]> (default ∅ (Font pg)));
                  Contents := Contents pg |}).

(** [self.pdf_object.pages[page_ix]] with Python's sequence indexing:
    a negative index counts from the end, anything outside raises
    [IndexError]; an index that does not fit the binding's 64-bit signed
    integer raises [TypeError] instead (a document has fewer than 2^63
    pages, so an index in range always fits). *)
Definition pages_getitem (page_ix : Z) : M nat := fun s =>
  let n := Z.of_nat (length (pages (pdf_object s))) in
  if decide (0 <= page_ix < n)%Z then (Ok (Z.to_nat page_ix), s)
  else if decide (- n <= page_ix < 0)%Z then (Ok (Z.to_nat (n + page_ix)), s)
  else if decide (- 2 ^ 63 <= page_ix < 2 ^ 63)%Z then (Raise IndexError, s)
  else (Raise TypeError, s).

(** ** Python arithmetic on [int] and [float] *)

(** [float(z)]: the nearest binary64 value, ties to even; Python raises
    [OverflowError] when the integer is too large to convert. *)
Definition py_float (z : Z) : option float :=
  let f := SF2Prim (binary_normalize prec emax z 0 false) in
  if is_infinity f then None else Some f.

Definition lift_float (o : option float) : M float :=
  match o with
  | Some f => ret f
  | None => raise OverflowError
  end.

(** [n * x] for an [int] [n] and a [float] [x]. *)
Definition int_mul_float (n : Z) (x : float) : M float :=
  f <- lift_float (py_float n) ;; ret (f * x)%float.

(** [n - x] for an [int] [n] and a [float] [x]. *)
Definition int_sub_float (n : Z) (x : float) : M float :=
  f <- lift_float (py_float n) ;; ret (f - x)%float.

(** [n - x] for a number [n] read from the PDF and a [float] [x]:
    [Decimal - float] is not defined and raises [TypeError]. *)
Definition num_sub_float (n : pynum) (x : float) : M float :=
  match n with
  | PyInt z => int_sub_float z x
  | PyDecimal _ _ => raise TypeError
  end.

(** ** class PDFFactory *)

Definition DPI : Z := 72.

Definition no_page_msg : string :=
  "A page must be opened prior to this operation.".

Definition already_open_msg : string :=
  "A page is already open and must be closed prior to opening a new page.".

Definition not_a_key_msg (font : string) : list fragment :=
  [FRepr font; FLit " is not a BaseFont enum key"].

(** The session that lines 33-37 assign, given the document that
    [pikepdf.open] returned. *)
Definition closed_session (b : bytes) (doc : document) : PDFFactory :=
  {| pdf_bytes := b; pdf_object := doc; page_object := None;
     _current_page := None; _page_instructions := None |}.

(** Attribute lookup on the instance under construction.  The instance
    dictionary holds what [__init__] has assigned so far; the class body
    contributes [DPI], the property [current_page] and the methods. *)
Inductive pyval :=
| VInt (z : Z)
| VBytes (b : bytes)
| VClassMember (qualname : string).

Definition class_dict : gmap string pyval :=
  list_to_map
    [("DPI", VInt DPI);
     ("__init__", VClassMember "PDFFactory.__init__");
     ("current_page", VClassMember "PDFFactory.current_page");
     ("_add_font", VClassMember "PDFFactory._add_font");
     ("_open_page", VClassMember "PDFFactory._open_page");
     ("_close_page", VClassMember "PDFFactory._close_page");
     ("_assert_page_is_open", VClassMember "PDFFactory._assert_page_is_open");
     ("_make_text_instructions", VClassMember "PDFFactory._make_text_instructions");
     ("_insert_new_instructions", VClassMember "PDFFactory._insert_new_instructions");
     ("_add_text_xy_points", VClassMember "PDFFactory._add_text_xy_points");
     ("add_text", VClassMember "PDFFactory.add_text");
     ("add_text_cm", VClassMember "PDFFactory.add_text_cm");
     ("get_page_dimension", VClassMember "PDFFactory.get_page_dimension")].

Definition getattr (instance_dict : gmap string pyval) (attr : string) : result pyval :=
  match instance_dict !! attr with
  | Some v => Ok v
  | None =>
      match class_dict !! attr with
      | Some v => Ok v
      | None => Raise (AttributeError attr)
      end
  end.

(** [__init__], lines 32-37.  Line 33 assigns [pdf_bytes]; line 34 reads
    [self.pdf_path] and hands it to the collaborator. *)
Definition __init__ `{Pikepdf} (b : bytes) : result PDFFactory :=
  let self : gmap string pyval := <["pdf_bytes" := VBytes b]> ∅ in
  match getattr self "pdf_path" with
  | Raise e => Raise e
  | Ok (VBytes path) =>
      match pikepdf_open path with
      | Some doc => Ok (closed_session b doc)
      | None => Raise PdfError
      end
  | Ok _ => Raise TypeError
  end.

(** The property [current_page], lines 39-41. *)
Definition current_page : M (option Z) := get _current_page.

(** [_assert_page_is_open], lines 95-100. *)
Definition _assert_page_is_open : M unit :=
  po <- get page_object ;;
  match po with
  | None => raise (PDFQuickTextError no_page_msg)
  | Some _ => ret tt
  end.

(** [_add_font], lines 43-66.  The result is what the method returns:
    [ONone] for the bare [return] of line 56, the name on line 66.  On line
    55 [resources.Font] raises [AttributeError] when the page's resources
    have no font dictionary. *)
Definition _add_font (font : font_arg) : M operand :=
  _assert_page_is_open ;;
  font <- match font with
          | FontStr key =>
              match BaseFont_getitem key with
              | Some f => ret f
              | None => raise (KeyError (not_a_key_msg key))
              end
          | FontEnum f => ret f
          end ;;
  let pdf_font := value font in
  pg <- self_page "resources" ;;
  match Font pg with
  | None => raise (AttributeError "/Font")
  | Some fonts =>
      if decide (is_Some (fonts !! pdf_font)) then ret ONone
      else
        let font_dict := {| Type_ := "/Font"; Subtype_ := "/Type1";
                            BaseFont_ := pdf_font |} in
        make_indirect font_dict ;;
        add_resource font_dict (value font) ;;
        ret (OName pdf_font)
  end.

(** [_open_page], lines 68-82. *)
Definition _open_page `{Pikepdf} (page_ix : Z) : M unit :=
  cp <- current_page ;;
  match cp with
  | Some _ => raise (PDFQuickTextError already_open_msg)
  | None =>
      set__current_page (Some page_ix) ;;
      r <- pages_getitem page_ix ;;
      set_page_object (Some r) ;;
      pg <- self_page "page_object" ;;
      match parse_content_stream pg with
      | Some instructions => set__page_instructions (Some instructions)
      | None => raise PdfError
      end
  end.

(** [_close_page], lines 84-93.  Encoding [None] fails inside the
    collaborator; line 90 assigns Python [bytes], which the page stores as
    a PDF string. *)
Definition _close_page `{Pikepdf} : M unit :=
  _assert_page_is_open ;;
  pi <- get _page_instructions ;;
  content_stream <- match pi with
                    | None => raise PdfError
                    | Some instructions =>
                        match unparse_content_stream instructions with
                        | Some b => ret b
                        | None => raise PdfError
                        end
                    end ;;
  update_self_page "Contents"
    (fun pg => {| MediaBox := MediaBox pg; Font := Font pg;
                  Contents := PdfString content_stream |}) ;;
  set__current_page None ;;
  set__page_instructions None ;;
  set_page_object None.

(** The list that lines 116-122 build when every constructor call
    returns. *)
Definition text_block (font_name : operand) (text : string) (x y size : float)
    : list ContentStreamInstruction :=
  [CSI [] "BT";
   CSI [font_name; OReal size] "Tf";
   CSI [OInt 1; OInt 0; OInt 0; OInt 1; OReal x; OReal y] "Tm";
   CSI [OString text] "Tj";
   CSI [] "ET"].

(** A [float] that is neither an infinity nor a NaN. *)
Definition finite (f : float) : bool := negb (is_nan f || is_infinity f).

Definition operand_ok (o : operand) : bool :=
  match o with
  | OReal f => finite f
  | _ => true
  end.

(** Whether the three [float] operands of a text block are all finite. *)
Definition finite_operands (x y size : float) : bool :=
  finite size && finite x && finite y.

(** The constructor call [CSI(operands, operator)]: the collaborator turns
    each operand into a PDF object and raises [ValueError] for a [float]
    that is an infinity or a NaN. *)
Definition new_instruction (ops : list operand) (op : string)
    : M ContentStreamInstruction :=
  if forallb operand_ok ops then ret (CSI ops op) else raise ValueError.

(** [_make_text_instructions], lines 102-124: the font is added first, then
    the five instructions are built in order. *)
Definition _make_text_instructions (text : string) (x y size : float)
    (font : font_arg) : M (list ContentStreamInstruction) :=
  pdf_font <- _add_font font ;;
  bt <- new_instruction [] "BT" ;;
  tf <- new_instruction [pdf_font; OReal size] "Tf" ;;
  tm <- new_instruction [OInt 1; OInt 0; OInt 0; OInt 1; OReal x; OReal y] "Tm" ;;
  tj <- new_instruction [OString text] "Tj" ;;
  et <- new_instruction [] "ET" ;;
  ret [bt; tf; tm; tj; et].

(** The loop of lines 131-134 on operators that [str] decodes:
    [scan_ET i l insert_index] runs the body over [l], whose first element
    has index [i]. *)
Fixpoint scan_ET (i : nat) (l : list ContentStreamInstruction)
    (insert_index : nat) : nat :=
  match l with
  | [] => insert_index
  | ins :: rest =>
      scan_ET (S i) rest
        (if String.eqb (operator ins) "ET" then i else insert_index)
  end.

(** Whether a byte string is well-formed UTF-8: no stray or missing
    continuation byte, no overlong form, no surrogate, nothing above
    U+10FFFF. *)
Definition byte_in (lo hi : nat) (c : Ascii.ascii) : bool :=
  (lo <=? Ascii.nat_of_ascii c)%nat && (Ascii.nat_of_ascii c <=? hi)%nat.

Fixpoint utf8_valid (s : string) : bool :=
  match s with
  | EmptyString => true
  | String c0 s1 =>
      if byte_in 0 127 c0 then utf8_valid s1
      else
        match s1 with
        | EmptyString => false
        | String c1 s2 =>
            if byte_in 194 223 c0 then byte_in 128 191 c1 && utf8_valid s2
            else
              match s2 with
              | EmptyString => false
              | String c2 s3 =>
                  if byte_in 224 224 c0 then
                    byte_in 160 191 c1 && byte_in 128 191 c2 && utf8_valid s3
                  else if byte_in 237 237 c0 then
                    byte_in 128 159 c1 && byte_in 128 191 c2 && utf8_valid s3
                  else if byte_in 225 239 c0 then
                    byte_in 128 191 c1 && byte_in 128 191 c2 && utf8_valid s3
                  else
                    match s3 with
                    | EmptyString => false
                    | String c3 s4 =>
                        if byte_in 240 240 c0 then
                          byte_in 144 191 c1 && byte_in 128 191 c2
                          && byte_in 128 191 c3 && utf8_valid s4
                        else if byte_in 241 243 c0 then
                          byte_in 128 191 c1 && byte_in 128 191 c2
                          && byte_in 128 191 c3 && utf8_valid s4
                        else if byte_in 244 244 c0 then
                          byte_in 128 143 c1 && byte_in 128 191 c2
                          && byte_in 128 191 c3 && utf8_valid s4
                        else false
                    end
              end
        end
  end.

(** [str(op)]: the operator's bytes decoded as UTF-8; [None] stands for the
    [UnicodeDecodeError].  The text is kept as its bytes. *)
Definition str (op : string) : option string :=
  if utf8_valid op then Some op else None.

(** The loop of lines 131-134 as it runs: [str(op)] may raise at any
    instruction. *)
Fixpoint scan_loop (i : nat) (l : list ContentStreamInstruction)
    (insert_index : nat) : result nat :=
  match l with
  | [] => Ok insert_index
  | ins :: rest =>
      match str (operator ins) with
      | None => Raise UnicodeDecodeError
      | Some op =>
          scan_loop (S i) rest
            (if String.eqb op "ET" then i else insert_index)
      end
  end.

(** An instruction whose operator [str] decodes. *)
Definition decodable (ins : ContentStreamInstruction) : Prop :=
  utf8_valid (operator ins) = true.

(** [_insert_new_instructions], lines 126-139.  Iterating over [None]
    raises [TypeError]. *)
Definition _insert_new_instructions (new : list ContentStreamInstruction) : M unit :=
  pi <- get _page_instructions ;;
  match pi with
  | None => raise TypeError
  | Some instructions =>
      match scan_loop 0 instructions 0 with
      | Raise e => raise e
      | Ok insert_index =>
          set__page_instructions
            (Some (take insert_index instructions ++ new
                     ++ drop insert_index instructions))
      end
  end.

(** [_add_text_xy_points], lines 141-154. *)
Definition _add_text_xy_points (text : string) (x y size : float)
    (font : font_arg) : M unit :=
  instructions <- _make_text_instructions text x y size font ;;
  _insert_new_instructions instructions.

(** [get_page_dimension], lines 189-199. *)
Definition get_page_dimension : M (pynum * pynum * pynum * pynum) :=
  _assert_page_is_open ;;
  pg <- self_page "MediaBox" ;;
  match MediaBox pg with
  | Some box => ret box
  | None => ret (PyInt 0, PyInt 0, PyInt 612, PyInt 792)
  end.

(** [add_text], lines 156-171. *)
Definition add_text (text : string) (inches_from_left inches_from_top size : float)
    (font : font_arg) : M unit :=
  dimension <- get_page_dimension ;;
  let '(_, _, _, y_top) := dimension in
  x <- int_mul_float DPI inches_from_left ;;
  d <- int_mul_float DPI inches_from_top ;;
  y <- num_sub_float y_top d ;;
  _add_text_xy_points text x y size font.

(** [add_text_cm], lines 173-187. *)
Definition add_text_cm (text : string) (cm_from_left cm_from_top size : float)
    (font : font_arg) : M unit :=
  let inches_from_left := (2.54 * cm_from_left)%float in
  let inches_from_top := (2.54 * cm_from_top)%float in
  add_text text inches_from_left inches_from_top size font.

(** ** Session states *)

(** [pg] is the page behind [self.page_object]. *)
Definition open_on (s : PDFFactory) (pg : page) : Prop :=
  exists r, page_object s = Some r /\ pages (pdf_object s) !! r = Some pg.

(** The two states of the spec's state machine, on the three attributes
    that [_open_page] assigns and [_close_page] resets. *)
Definition Closed (s : PDFFactory) : Prop :=
  page_object s = None /\ _current_page s = None /\ _page_instructions s = None.

Definition Open (s : PDFFactory) : Prop :=
  is_Some (page_object s) /\ is_Some (_current_page s)
  /\ is_Some (_page_instructions s).

Definition coherent (s : PDFFactory) : Prop := Closed s \/ Open s.

(** ** States and values named in the statements *)

Definition font_dict_of (f : BaseFont) : font_dict :=
  {| Type_ := "/Font"; Subtype_ := "/Type1"; BaseFont_ := value f |}.

Definition with_font (f : BaseFont) (pg : page) : page :=
  {| MediaBox := MediaBox pg;
     Font := Some (<[value f := font_dict_of f]> (default ∅ (Font pg)));
     Contents := Contents pg |}.

(** The session after lines 58-65 registered [f] on the page behind [r]. *)
Definition register_font (f : BaseFont) (r : nat) (s : PDFFactory) : PDFFactory :=
  {| pdf_bytes := pdf_bytes s;
     pdf_object :=
       {| pages := alter (with_font f) r (pages (pdf_object s));
          indirect_objects := indirect_objects (pdf_object s) ++ [font_dict_of f] |};
     page_object := page_object s;
     _current_page := _current_page s;
     _page_instructions := _page_instructions s |}.

Definition with_instructions (l : list ContentStreamInstruction) (s : PDFFactory)
    : PDFFactory :=
  {| pdf_bytes := pdf_bytes s; pdf_object := pdf_object s;
     page_object := page_object s; _current_page := _current_page s;
     _page_instructions := Some l |}.

Definition page_y_top (pg : page) : pynum :=
  let '(_, _, _, y_top) :=
    default (PyInt 0, PyInt 0, PyInt 612, PyInt 792) (MediaBox pg) in y_top.

(** What every method but [_open_page] and [_close_page] keeps: the page
    reference, the page index, and whether there is an instruction list. *)
Definition same_shape (s s' : PDFFactory) : Prop :=
  page_object s' = page_object s /\ _current_page s' = _current_page s
  /\ (is_Some (_page_instructions s') <-> is_Some (_page_instructions s)).

Definition preserves {A} (R : relation PDFFactory) (m : M A) : Prop :=
  forall s, R s (m s).2.

(** ** Concrete documents and sessions used to run the methods *)

(** A test double for the collaborator: a content stream is a run of
    operand-free operators separated by spaces. *)
Fixpoint words (cur s : string) : list string :=
  match s with
  | EmptyString => if String.eqb cur "" then [] else [cur]
  | String c rest =>
      if Ascii.eqb c (Ascii.ascii_of_nat 32) then
        (if String.eqb cur "" then words "" rest else cur :: words "" rest)
      else words (cur +:+ String c "") rest
  end.

Definition stream_words (c : contents) : list ContentStreamInstruction :=
  match c with
  | Stream data => map (CSI []) (words "" (String.string_of_list_byte data))
  | PdfString _ => []
  end.

Definition words_codec : Pikepdf := {|
  pikepdf_open := fun b =>
    Some {| pages := [{| MediaBox := None; Font := None; Contents := Stream b |}];
            indirect_objects := [] |};
  parse_content_stream := fun pg => Some (stream_words (Contents pg));
  unparse_content_stream := fun l =>
    if forallb (fun i => bool_decide (length (operands i) = 0%nat)) l
    then Some (String.list_byte_of_string (String.concat " " (map operator l)))
    else None
|}.

Definition letter_page : page :=
  {| MediaBox := Some (0, 0, 612, 792)%Z; Font := Some ∅; Contents := Stream [] |}.

Definition one_page_doc : document :=
  {| pages := [letter_page]; indirect_objects := [] |}.

(** A session with page 0 of [one_page_doc] open on the instructions [l]. *)
Definition open_session (l : list ContentStreamInstruction) : PDFFactory :=
  {| pdf_bytes := []; pdf_object := one_page_doc; page_object := Some 0%nat;
     _current_page := Some 0%Z; _page_instructions := Some l |}.

(** The block that [add_text "Hello" _ _ 11.0 _] builds. *)
Definition hello_block (font_name : operand) (x y : float)
    : list ContentStreamInstruction :=
  text_block font_name "Hello" x y 11.

Definition a4_page : page :=
  {| MediaBox := Some (0, 0, 595, 842)%Z; Font := Some ∅; Contents := Stream [] |}.

Definition boxless_page : page :=
  {| MediaBox := None; Font := Some ∅; Contents := Stream [] |}.

Definition session_on (pg : page) : PDFFactory :=
  {| pdf_bytes := [];
     pdf_object := {| pages := [letter_page; pg]; indirect_objects := [] |};
     page_object := Some 1%nat; _current_page := Some 1%Z;
     _page_instructions := Some [] |}.

Definition first_block : list ContentStreamInstruction :=
  text_block (OName "/Times-Roman") "first" 72 720 11.

Definition second_block : list ContentStreamInstruction :=
  text_block (OName "/Helvetica") "second" 72 700 11.

(** ** Relations and test data for the frame and life-cycle properties *)

Definition not_ET (ins : ContentStreamInstruction) : Prop := operator ins ≠ "ET".

(** A font dictionary that kept every entry it had; a page without one
    still has none. *)
Definition fonts_grow (t t' : option (gmap string font_dict)) : Prop :=
  match t, t' with
  | Some fonts, Some fonts' => fonts ⊆ fonts'
  | None, None => True
  | _, _ => False
  end.

(** A page that kept its media box and its stored content stream, and every
    font entry it had. *)
Definition page_grows (pg pg' : page) : Prop :=
  MediaBox pg' = MediaBox pg /\ Contents pg' = Contents pg
  /\ fonts_grow (Font pg) (Font pg').

(** A session whose bytes are the same and whose document has the same
    pages, each grown as above, and at least the indirect objects it had. *)
Definition document_grows (s s' : PDFFactory) : Prop :=
  pdf_bytes s' = pdf_bytes s
  /\ Forall2 page_grows (pages (pdf_object s)) (pages (pdf_object s'))
  /\ indirect_objects (pdf_object s) `prefix_of` indirect_objects (pdf_object s').

(** The page [pg] with the encoded stream [b] stored as its contents, as
    line 90 leaves it. *)
Definition with_contents (b : bytes) (pg : page) : page :=
  {| MediaBox := MediaBox pg; Font := Font pg; Contents := PdfString b |}.

(** A second test double, which can encode operands: it writes each
    operand as a token for its kind and reads a stream back as operators. *)
Definition render_operand (o : operand) : string :=
  match o with
  | ONone => "null"
  | OInt _ => "int"
  | OReal _ => "real"
  | OName n => n
  | OString text => "(" +:+ text +:+ ")"
  end.

Definition render_instruction (ins : ContentStreamInstruction) : string :=
  String.concat " " (map render_operand (operands ins) ++ [operator ins]).

Definition outline_codec : Pikepdf := {|
  pikepdf_open := fun b =>
    Some {| pages := [{| MediaBox := None; Font := None; Contents := Stream b |}];
            indirect_objects := [] |};
  parse_content_stream := fun pg => Some (stream_words (Contents pg));
  unparse_content_stream := fun l =>
    Some (String.list_byte_of_string (String.concat " " (map render_instruction l)))
|}.

(** A third test double, which decodes nothing but the empty stream. *)
Definition empty_stream_codec : Pikepdf := {|
  pikepdf_open := fun b =>
    Some {| pages := [{| MediaBox := None; Font := None; Contents := Stream b |}];
            indirect_objects := [] |};
  parse_content_stream := fun pg =>
    match Contents pg with
    | Stream [] => Some []
    | Stream (_ :: _) => None
    | PdfString _ => Some []
    end;
  unparse_content_stream := fun l =>
    match l with
    | [] => Some []
    | _ :: _ => None
    end
|}.

(** A page that already has a text object and a Helvetica resource. *)
Definition stream_page : page :=
  {| MediaBox := Some (0, 0, 595, 842)%Z;
     Font := Some {[ "/Helvetica" := font_dict_of helvetica ]};
     Contents := Stream (String.list_byte_of_string "q BT ET Q") |}.

(** A US-Letter page as a blank one comes: integer media box, resources
    without a font dictionary, empty content stream. *)
Definition blank_letter_page : page :=
  {| MediaBox := Some (0, 0, 612, 792)%Z; Font := None; Contents := Stream [] |}.

Definition blank_doc : document :=
  {| pages := [blank_letter_page]; indirect_objects := [] |}.

(** A US-Letter page whose media box is written with reals,
    [0 0 612.0 792.0], and which has an empty font dictionary. *)
Definition real_letter_page : page :=
  {| MediaBox := Some (PyInt 0, PyInt 0, PyDecimal 6120 (-1), PyDecimal 7920 (-1));
     Font := Some ∅; Contents := Stream [] |}.

(** Page 0 of a one-page document open, with no instructions. *)
Definition session_of (pg : page) : PDFFactory :=
  {| pdf_bytes := [];
     pdf_object := {| pages := [pg]; indirect_objects := [] |};
     page_object := Some 0%nat; _current_page := Some 0%Z;
     _page_instructions := Some [] |}.

(** An operator token of two bytes, FF FE, which is not UTF-8. *)
Definition bad_operator : string :=
  String (Ascii.ascii_of_nat 255) (String (Ascii.ascii_of_nat 254) EmptyString).

Definition two_page_doc : document :=
  {| pages := [letter_page; stream_page]; indirect_objects := [] |}.

Definition stream_instructions : list ContentStreamInstruction :=
  [CSI [] "q"; CSI [] "BT"; CSI [] "ET"; CSI [] "Q"].

(** Page 1 of [two_page_doc] open on its decoded instructions. *)
Definition stream_session : PDFFactory :=
  {| pdf_bytes := []; pdf_object := two_page_doc; page_object := Some 1%nat;
     _current_page := Some 1%Z; _page_instructions := Some stream_instructions |}.

(** A call made on the session by its user.  An exception raised by a call
    reaches the caller; the session object lives on as the call left it. *)
Inductive call :=
| CallOpenPage (page_ix : Z)
| CallClosePage
| CallAddFont (font : font_arg)
| CallAddText (text : string) (inches_from_left inches_from_top size : float)
    (font : font_arg)
| CallAddTextCm (text : string) (cm_from_left cm_from_top size : float)
    (font : font_arg)
| CallGetPageDimension.

Definition do_call `{Pikepdf} (c : call) : M unit :=
  match c with
  | CallOpenPage page_ix => _open_page page_ix
  | CallClosePage => _close_page
  | CallAddFont font => _ <- _add_font font ;; ret tt
  | CallAddText text l t size font => add_text text l t size font
  | CallAddTextCm text l t size font => add_text_cm text l t size font
  | CallGetPageDimension => _ <- get_page_dimension ;; ret tt
  end.

Definition run_call `{Pikepdf} (c : call) (s : PDFFactory) : PDFFactory :=
  (do_call c s).2.

Definition run_calls `{Pikepdf} (cs : list call) (s : PDFFactory) : PDFFactory :=
  fold_left (fun s c => run_call c s) cs s.

(** The sessions that calls can produce from a freshly assigned one. *)
Definition reachable `{Pikepdf} (s : PDFFactory) : Prop :=
  exists b doc cs, s = run_calls cs (closed_session b doc).

(** Along the run of [cs] from [s], every [_open_page] call returns
    normally (the other calls may raise). *)
Fixpoint no_failed_open `{Pikepdf} (cs : list call) (s : PDFFactory) : Prop :=
  match cs with
  | [] => True
  | c :: rest =>
      ((do_call c s).1 = Ok tt \/ (forall page_ix, c ≠ CallOpenPage page_ix))
      /\ no_failed_open rest (run_call c s)
  end.

(** ** Running the methods: equations used by the proofs below *)

Arguments py_float : simpl never.

Ltac run_method :=
  unfold bind, get, ret, raise, lift_float, set_pdf_object, set_page_object,
    set__current_page, set__page_instructions; cbn.

Lemma py_float_DPI : py_float DPI = Some 72%float.
Proof. vm_compute. reflexivity. Qed.

Lemma py_float_792 : py_float 792 = Some 792%float.
Proof. vm_compute. reflexivity. Qed.

Lemma assert_open_ok s r :
  page_object s = Some r -> _assert_page_is_open s = (Ok tt, s).
Proof. intros Hr. unfold _assert_page_is_open. run_method. by rewrite Hr. Qed.

Lemma assert_open_raises s :
  page_object s = None ->
  _assert_page_is_open s = (Raise (PDFQuickTextError no_page_msg), s).
Proof. intros Hr. unfold _assert_page_is_open. run_method. by rewrite Hr. Qed.

Lemma self_page_open s pg attr :
  open_on s pg -> self_page attr s = (Ok pg, s).
Proof. intros (r & Hr & Hpg). unfold self_page. by rewrite Hr, Hpg. Qed.

Lemma get_page_dimension_open s pg :
  open_on s pg ->
  get_page_dimension s
  = (Ok (default (PyInt 0, PyInt 0, PyInt 612, PyInt 792) (MediaBox pg)), s).
Proof.
  intros Hopen. pose proof Hopen as (r & Hr & _).
  unfold get_page_dimension, bind.
  rewrite (assert_open_ok s r Hr), (self_page_open s pg _ Hopen).
  by destruct (MediaBox pg).
Qed.

Lemma BaseFont_getitem_name f : BaseFont_getitem (name f) = Some f.
Proof. by destruct f. Qed.

Lemma BaseFont_getitem_Some key f : BaseFont_getitem key = Some f -> key = name f.
Proof.
  unfold BaseFont_getitem. intros Hfind.
  apply find_some in Hfind as [_ Heq]. symmetry. by apply String.eqb_eq.
Qed.

(** The loop keeps the index of the last [ET] it has seen. *)
Lemma scan_ET_app i pre post k :
  scan_ET i (pre ++ post) k = scan_ET (i + length pre) post (scan_ET i pre k).
Proof.
  revert i k. induction pre as [|ins pre IH]; intros i k; cbn.
  - by rewrite Nat.add_0_r.
  - rewrite IH. f_equal. lia.
Qed.

Lemma scan_ET_none i l k :
  Forall (fun ins => operator ins ≠ "ET") l -> scan_ET i l k = k.
Proof.
  intros Hl. revert i k. induction Hl as [|ins l Hins _ IH]; intros i k; cbn.
  - done.
  - apply String.eqb_neq in Hins. by rewrite Hins, IH.
Qed.

Lemma scan_ET_last pre et post :
  operator et = "ET" ->
  Forall (fun ins => operator ins ≠ "ET") post ->
  scan_ET 0 (pre ++ et :: post) 0 = length pre.
Proof.
  intros Het Hpost. rewrite scan_ET_app. cbn.
  apply String.eqb_eq in Het. by rewrite Het, scan_ET_none.
Qed.

(** On decodable operators the loop as it runs computes [scan_ET]; one
    operator that does not decode makes it raise. *)
Lemma scan_loop_decodable i l k :
  Forall decodable l -> scan_loop i l k = Ok (scan_ET i l k).
Proof.
  intros Hl. revert i k. induction Hl as [|ins l Hins _ IH]; intros i k; cbn.
  - done.
  - unfold str. unfold decodable in Hins. by rewrite Hins, IH.
Qed.

Lemma scan_loop_undecodable i l k :
  Exists (fun ins => utf8_valid (operator ins) = false) l ->
  scan_loop i l k = Raise UnicodeDecodeError.
Proof.
  intros Hl. revert i k. induction Hl as [ins l Hins|ins l _ IH]; intros i k; cbn.
  - unfold str. by rewrite Hins.
  - unfold str. destruct (utf8_valid (operator ins)); [apply IH | done].
Qed.

Lemma insert_decodable s new l :
  _page_instructions s = Some l ->
  Forall decodable l ->
  _insert_new_instructions new s
  = (Ok tt,
     with_instructions
       (take (scan_ET 0 l 0) l ++ new ++ drop (scan_ET 0 l 0) l) s).
Proof.
  intros Hs Hl. unfold _insert_new_instructions. run_method.
  by rewrite Hs, (scan_loop_decodable _ _ _ Hl).
Qed.

(** Where the new block lands: in front of the last [ET], at the head of a
    sequence without [ET]. *)
Lemma insert_new_instructions_at_last_ET s new pre et post :
  _page_instructions s = Some (pre ++ et :: post) ->
  Forall decodable (pre ++ et :: post) ->
  operator et = "ET" ->
  Forall (fun ins => operator ins ≠ "ET") post ->
  _page_instructions (_insert_new_instructions new s).2
  = Some (pre ++ new ++ et :: post).
Proof.
  intros Hs Hdec Het Hpost. rewrite (insert_decodable s new _ Hs Hdec). cbn.
  rewrite (scan_ET_last _ _ _ Het Hpost).
  by rewrite take_app_length, drop_app_length.
Qed.

Lemma insert_new_instructions_no_ET s new l :
  _page_instructions s = Some l ->
  Forall decodable l ->
  Forall (fun ins => operator ins ≠ "ET") l ->
  _page_instructions (_insert_new_instructions new s).2 = Some (new ++ l).
Proof.
  intros Hs Hdec Hl. rewrite (insert_decodable s new _ Hs Hdec). cbn.
  rewrite (scan_ET_none _ _ _ Hl). by rewrite take_0, drop_0.
Qed.

Lemma BaseFont_getitem_None key :
  (forall f, key ≠ name f) -> BaseFont_getitem key = None.
Proof.
  intros Hkey. destruct (BaseFont_getitem key) as [f|] eqn:Hf; [|done].
  apply BaseFont_getitem_Some in Hf. by destruct (Hkey f).
Qed.

Lemma add_font_unknown_key s r key :
  page_object s = Some r ->
  BaseFont_getitem key = None ->
  _add_font (FontStr key) s = (Raise (KeyError (not_a_key_msg key)), s).
Proof.
  intros Hr Hkey. unfold _add_font, bind at 1.
  rewrite (assert_open_ok s r Hr). unfold bind at 1. by rewrite Hkey.
Qed.

(** ** Guards of the session *)

Lemma Closed_no_page s : Closed s -> page_object s = None.
Proof. by intros (Hpo & _). Qed.

Lemma Open_current_page s : Open s -> is_Some (_current_page s).
Proof. by intros (_ & Hcp & _). Qed.

(** C7: with no page open ([page_object] is [None], as in every [Closed]
    state), [add_text], [add_text_cm], [_add_font], [get_page_dimension] and
    [_close_page] all raise [PDFQuickTextError] with the no-page-open
    message, and the session is left exactly as it was. *)
Theorem no_page_open_raises `{Pikepdf} (s : PDFFactory) :
  page_object s = None ->
  (forall text l t size font,
      add_text text l t size font s = (Raise (PDFQuickTextError no_page_msg), s))
  /\ (forall text l t size font,
      add_text_cm text l t size font s = (Raise (PDFQuickTextError no_page_msg), s))
  /\ (forall font, _add_font font s = (Raise (PDFQuickTextError no_page_msg), s))
  /\ get_page_dimension s = (Raise (PDFQuickTextError no_page_msg), s)
  /\ _close_page s = (Raise (PDFQuickTextError no_page_msg), s).
Proof.
  intros Hnone.
  assert (Hdim : get_page_dimension s = (Raise (PDFQuickTextError no_page_msg), s)).
  { unfold get_page_dimension, bind. by rewrite (assert_open_raises s Hnone). }
  assert (Htext : forall text l t size font,
    add_text text l t size font s = (Raise (PDFQuickTextError no_page_msg), s)).
  { intros. unfold add_text, bind at 1. by rewrite Hdim. }
  repeat split.
  - exact Htext.
  - intros. unfold add_text_cm. apply Htext.
  - intros font. unfold _add_font, bind at 1.
    by rewrite (assert_open_raises s Hnone).
  - exact Hdim.
  - unfold _close_page, bind at 1. by rewrite (assert_open_raises s Hnone).
Qed.

Lemma no_page_open_raises_witness :
  page_object (closed_session [] one_page_doc) = None
  /\ add_text "Hello" 1 1 11 (FontStr "timesroman") (closed_session [] one_page_doc)
     = (Raise (PDFQuickTextError no_page_msg), closed_session [] one_page_doc)
  /\ add_text_cm "Hello" 1 1 11 (FontStr "timesroman") (closed_session [] one_page_doc)
     = (Raise (PDFQuickTextError no_page_msg), closed_session [] one_page_doc)
  /\ _add_font (FontEnum symbol) (closed_session [] one_page_doc)
     = (Raise (PDFQuickTextError no_page_msg), closed_session [] one_page_doc)
  /\ get_page_dimension (closed_session [] one_page_doc)
     = (Raise (PDFQuickTextError no_page_msg), closed_session [] one_page_doc)
  /\ @_close_page words_codec (closed_session [] one_page_doc)
     = (Raise (PDFQuickTextError no_page_msg), closed_session [] one_page_doc).
Proof.
  destruct (@no_page_open_raises words_codec (closed_session [] one_page_doc))
    as (Htext & Hcm & Hfont & Hdim & Hclose); [reflexivity|].
  split; [reflexivity|].
  split; [apply Htext|]. split; [apply Hcm|]. split; [apply Hfont|].
  split; [exact Hdim | exact Hclose].
Defined.

(** C8: when a page is already open ([_current_page] is not [None], as in
    every [Open] state), [_open_page] with any index raises
    [PDFQuickTextError] with the already-open message and leaves the
    session, hence the open page, its index and its instruction sequence,
    exactly as it was. *)
Theorem open_page_twice_raises `{Pikepdf} (s : PDFFactory) (page_ix : Z) :
  is_Some (_current_page s) ->
  _open_page page_ix s = (Raise (PDFQuickTextError already_open_msg), s).
Proof.
  intros [ix Hix]. unfold _open_page, current_page. run_method. by rewrite Hix.
Qed.

Lemma open_page_twice_raises_witness :
  is_Some (_current_page (open_session [CSI [] "BT"; CSI [] "ET"]))
  /\ @_open_page words_codec 0 (open_session [CSI [] "BT"; CSI [] "ET"])
     = (Raise (PDFQuickTextError already_open_msg),
        open_session [CSI [] "BT"; CSI [] "ET"]).
Proof.
  assert (Hopen : is_Some (_current_page (open_session [CSI [] "BT"; CSI [] "ET"])))
    by (cbn; by eexists).
  split; [exact Hopen|].
  exact (@open_page_twice_raises words_codec _ 0 Hopen).
Defined.

(** C9: on an open page, [get_page_dimension] returns the four values of
    the page's media box when the page declares one, and (0, 0, 612, 792)
    when it declares none; the session is not changed. *)
Theorem get_page_dimension_media_box (s : PDFFactory) (pg : page) :
  open_on s pg ->
  (forall x_left y_bottom x_right y_top,
      MediaBox pg = Some (x_left, y_bottom, x_right, y_top) ->
      get_page_dimension s = (Ok (x_left, y_bottom, x_right, y_top), s))
  /\ (MediaBox pg = None ->
      get_page_dimension s = (Ok (0, 0, 612, 792)%Z, s)).
Proof.
  intros Hopen. rewrite (get_page_dimension_open s pg Hopen).
  split; [intros ? ? ? ? Hbox | intros Hbox]; by rewrite Hbox.
Qed.

Lemma get_page_dimension_media_box_witness :
  get_page_dimension (session_on a4_page)
  = (Ok (0, 0, 595, 842)%Z, session_on a4_page)
  /\ get_page_dimension (session_on boxless_page)
     = (Ok (0, 0, 612, 792)%Z, session_on boxless_page).
Proof.
  split.
  - apply (get_page_dimension_media_box (session_on a4_page) a4_page).
    + exists 1%nat. split; reflexivity.
    + reflexivity.
  - apply (get_page_dimension_media_box (session_on boxless_page) boxless_page).
    + exists 1%nat. split; reflexivity.
    + reflexivity.
Defined.

(** ** Fonts *)

(** Lines 168-171 once the page dimension is read: with an integer top
    edge the text goes to the computed point, with a [Decimal] top edge
    line 170 raises before any font is looked at. *)
Lemma add_text_int_top s pg y yt text inches_from_left inches_from_top size font :
  open_on s pg ->
  page_y_top pg = PyInt y ->
  py_float y = Some yt ->
  add_text text inches_from_left inches_from_top size font s
  = _add_text_xy_points text (72 * inches_from_left) (yt - 72 * inches_from_top)
      size font s.
Proof.
  intros Hopen Htop Hyt. unfold add_text, bind at 1.
  rewrite (get_page_dimension_open s pg Hopen).
  unfold page_y_top in Htop.
  destruct (default _ (MediaBox pg)) as [[[x_left y_bottom] x_right] y_top].
  subst y_top. unfold int_mul_float, num_sub_float, int_sub_float.
  rewrite py_float_DPI, Hyt. by run_method.
Qed.

Lemma add_text_int_top_overflow s pg y text inches_from_left inches_from_top size font :
  open_on s pg ->
  page_y_top pg = PyInt y ->
  py_float y = None ->
  add_text text inches_from_left inches_from_top size font s
  = (Raise OverflowError, s).
Proof.
  intros Hopen Htop Hyt. unfold add_text, bind at 1.
  rewrite (get_page_dimension_open s pg Hopen).
  unfold page_y_top in Htop.
  destruct (default _ (MediaBox pg)) as [[[x_left y_bottom] x_right] y_top].
  subst y_top. unfold int_mul_float, num_sub_float, int_sub_float.
  rewrite py_float_DPI, Hyt. by run_method.
Qed.


(** On an open page, a font key that names none of the fourteen members
    makes [_add_font] raise [KeyError] whose message names the key, and,
    when the page's top edge is an integer that converts to [float], makes
    every [add_text] call with that key raise the same error; in both
    cases the session is left exactly as it was. *)
Lemma unknown_font_key_raises (s : PDFFactory) (pg : page) (key : string) :
  (forall f, key ≠ name f) ->
  open_on s pg ->
  _add_font (FontStr key) s = (Raise (KeyError (not_a_key_msg key)), s)
  /\ (forall y, page_y_top pg = PyInt y -> is_Some (py_float y) ->
      forall text inches_from_left inches_from_top size,
        add_text text inches_from_left inches_from_top size (FontStr key) s
        = (Raise (KeyError (not_a_key_msg key)), s)).
Proof.
  intros Hkey Hopen. pose proof Hopen as (r & Hr & _).
  apply BaseFont_getitem_None in Hkey.
  pose proof (add_font_unknown_key s r key Hr Hkey) as Hfont.
  split; [exact Hfont|].
  intros y Htop [yt Hyt] text l t size.
  rewrite (add_text_int_top s pg y yt); [|done..].
  unfold _add_text_xy_points, _make_text_instructions, bind. by rewrite Hfont.
Qed.

Lemma unknown_font_key_raises_witness :
  _add_font (FontStr "comicsans") (open_session [CSI [] "BT"; CSI [] "ET"])
  = (Raise (KeyError [FRepr "comicsans"; FLit " is not a BaseFont enum key"]),
     open_session [CSI [] "BT"; CSI [] "ET"])
  /\ add_text "Hello" 1 1 11 (FontStr "comicsans")
       (open_session [CSI [] "BT"; CSI [] "ET"])
     = (Raise (KeyError [FRepr "comicsans"; FLit " is not a BaseFont enum key"]),
        open_session [CSI [] "BT"; CSI [] "ET"]).
Proof.
  destruct (unknown_font_key_raises
              (open_session [CSI [] "BT"; CSI [] "ET"]) letter_page "comicsans")
    as [Hfont Htext].
  - intros f. destruct f; discriminate.
  - exists 0%nat. split; reflexivity.
  - split; [exact Hfont|]. apply (Htext 792%Z); [reflexivity|].
    rewrite py_float_792. by eexists.
Defined.

Lemma add_font_fresh s r pg fonts f :
  page_object s = Some r ->
  pages (pdf_object s) !! r = Some pg ->
  Font pg = Some fonts ->
  fonts !! value f = None ->
  _add_font (FontEnum f) s = (Ok (OName (value f)), register_font f r s).
Proof.
  intros Hr Hpg Hfonts Hfresh. unfold _add_font, bind at 1.
  rewrite (assert_open_ok s r Hr). unfold bind at 1. cbn.
  unfold bind at 1. rewrite (self_page_open s pg); [|by exists r].
  rewrite Hfonts, Hfresh. rewrite decide_False; [|by intros [? ?]].
  unfold make_indirect, add_resource, update_self_page, self_page, register_font.
  run_method. rewrite Hr. cbn. by rewrite Hpg.
Qed.

Lemma add_font_registered s pg fonts f :
  open_on s pg ->
  Font pg = Some fonts ->
  is_Some (fonts !! value f) ->
  _add_font (FontEnum f) s = (Ok ONone, s).
Proof.
  intros Hopen Hfonts Hreg. pose proof Hopen as (r & Hr & _).
  unfold _add_font, bind at 1.
  rewrite (assert_open_ok s r Hr). unfold bind at 1. cbn.
  unfold bind at 1. rewrite (self_page_open s pg _ Hopen).
  rewrite Hfonts. by rewrite decide_True.
Qed.

(** Line 55 on a page whose resources have no font dictionary. *)
Lemma add_font_no_dictionary s pg f :
  open_on s pg ->
  Font pg = None ->
  _add_font (FontEnum f) s = (Raise (AttributeError "/Font"), s).
Proof.
  intros Hopen Hfonts. pose proof Hopen as (r & Hr & _).
  unfold _add_font, bind at 1.
  rewrite (assert_open_ok s r Hr). unfold bind at 1. cbn.
  unfold bind at 1. rewrite (self_page_open s pg _ Hopen).
  by rewrite Hfonts.
Qed.

Lemma add_font_key s key f :
  BaseFont_getitem key = Some f ->
  _add_font (FontStr key) s = _add_font (FontEnum f) s.
Proof. intros Hkey. unfold _add_font, bind. by rewrite Hkey. Qed.

Lemma add_text_key s key f text inches_from_left inches_from_top size :
  BaseFont_getitem key = Some f ->
  add_text text inches_from_left inches_from_top size (FontStr key) s
  = add_text text inches_from_left inches_from_top size (FontEnum f) s.
Proof.
  intros Hkey.
  unfold add_text, _add_text_xy_points, _make_text_instructions, _add_font, bind.
  by rewrite Hkey.
Qed.

(** Lines 116-122 after [_add_font] returned a name or [None]: the five
    constructor calls return when [size], [x] and [y] are finite, and
    otherwise one of them raises [ValueError]. *)
Lemma make_text_instructions_run s s1 font pdf_font text x y size :
  _add_font font s = (Ok pdf_font, s1) ->
  operand_ok pdf_font = true ->
  _make_text_instructions text x y size font s
  = if finite_operands x y size
    then (Ok (text_block pdf_font text x y size), s1)
    else (Raise ValueError, s1).
Proof.
  intros Hfont Hok. unfold _make_text_instructions, bind at 1. rewrite Hfont.
  unfold finite_operands, new_instruction, bind, ret, raise. cbn.
  rewrite Hok. cbn.
  destruct (finite size); cbn; [|done].
  destruct (finite x); cbn; [|done].
  by destruct (finite y).
Qed.

(** [add_text] with a font that the page's font dictionary does not have
    yet. *)
Lemma add_text_fresh_font s r pg fonts l f text inches_from_left
    inches_from_top size y yt :
  page_object s = Some r ->
  pages (pdf_object s) !! r = Some pg ->
  _page_instructions s = Some l ->
  Forall decodable l ->
  Font pg = Some fonts ->
  fonts !! value f = None ->
  page_y_top pg = PyInt y ->
  py_float y = Some yt ->
  finite_operands (72 * inches_from_left) (yt - 72 * inches_from_top) size = true ->
  add_text text inches_from_left inches_from_top size (FontEnum f) s
  = (Ok tt,
     with_instructions
       (take (scan_ET 0 l 0) l
        ++ text_block (OName (value f)) text
             (72 * inches_from_left) (yt - 72 * inches_from_top) size
        ++ drop (scan_ET 0 l 0) l)
       (register_font f r s)).
Proof.
  intros Hr Hpg Hl Hdec Hfonts Hfresh Htop Hyt Hfin.
  rewrite (add_text_int_top s pg y yt); [|by exists r|done..].
  unfold _add_text_xy_points, bind at 1.
  rewrite (make_text_instructions_run s (register_font f r s) _ (OName (value f)));
    [|by apply (add_font_fresh s r pg fonts)|done].
  rewrite Hfin. by apply insert_decodable.
Qed.

Lemma open_page_ok `{Pikepdf} s page_ix pg l :
  _current_page s = None ->
  (0 <= page_ix)%Z ->
  pages (pdf_object s) !! Z.to_nat page_ix = Some pg ->
  parse_content_stream pg = Some l ->
  _open_page page_ix s
  = (Ok tt,
     {| pdf_bytes := pdf_bytes s; pdf_object := pdf_object s;
        page_object := Some (Z.to_nat page_ix);
        _current_page := Some page_ix;
        _page_instructions := Some l |}).
Proof.
  intros Hcp Hix Hpg Hparse.
  unfold _open_page, current_page, pages_getitem, self_page. run_method.
  rewrite Hcp. cbn.
  apply lookup_lt_Some in Hpg as Hlt.
  rewrite decide_True by lia. cbn. by rewrite Hpg, Hparse.
Qed.

(** ** Placing text *)

(** Opening a page whose media box is (0, 0, 612, 792), whose resources
    have a font dictionary without a Times-Roman entry and whose decoded
    operators are UTF-8, then calling
    [add_text "Hello" 1.0 1.0 11.0 "timesroman"], succeeds and leaves an
    instruction sequence made of the page's decoded instructions with the
    five instructions BT, Tf [/Times-Roman, 11.0], Tm [1, 0, 0, 1, 72, 720],
    Tj ["Hello"], ET inserted in one piece and in this order; on a page
    with no instructions they are the whole sequence. *)
Lemma hello_on_letter_page `{Pikepdf} (b : bytes) (doc : document)
    (page_ix : Z) (pg : page) (fonts : gmap string font_dict)
    (l : list ContentStreamInstruction) :
  (0 <= page_ix)%Z ->
  pages doc !! Z.to_nat page_ix = Some pg ->
  MediaBox pg = Some (0, 0, 612, 792)%Z ->
  Font pg = Some fonts ->
  fonts !! "/Times-Roman" = None ->
  parse_content_stream pg = Some l ->
  Forall decodable l ->
  exists s' pre post,
    (_open_page page_ix ;; add_text "Hello" 1 1 11 (FontStr "timesroman"))
      (closed_session b doc) = (Ok tt, s')
    /\ l = pre ++ post
    /\ (l = [] -> pre = [] /\ post = [])
    /\ _page_instructions s'
       = Some (pre ++ hello_block (OName "/Times-Roman") 72 720 ++ post).
Proof.
  intros Hix Hpg Hbox Hfonts Hfresh Hparse Hdec.
  eexists _, (take (scan_ET 0 l 0) l), (drop (scan_ET 0 l 0) l).
  split; [|split; [|split]].
  - unfold bind.
    rewrite (open_page_ok (closed_session b doc) page_ix pg l); [|done..].
    rewrite (add_text_key _ "timesroman" timesroman); [|done].
    erewrite (add_text_fresh_font _ (Z.to_nat page_ix) pg fonts l timesroman
                _ _ _ _ 792 792);
      [reflexivity|done..| | |].
    + unfold page_y_top. by rewrite Hbox.
    + exact py_float_792.
    + vm_compute. reflexivity.
  - by rewrite take_drop.
  - by intros ->.
  - reflexivity.
Qed.

Lemma hello_on_letter_page_witness :
  exists s',
    (@_open_page words_codec 0 ;; add_text "Hello" 1 1 11 (FontStr "timesroman"))
      (closed_session [] one_page_doc) = (Ok tt, s')
    /\ _page_instructions s'
       = Some [CSI [] "BT";
               CSI [OName "/Times-Roman"; OReal 11] "Tf";
               CSI [OInt 1; OInt 0; OInt 0; OInt 1; OReal 72; OReal 720] "Tm";
               CSI [OString "Hello"] "Tj";
               CSI [] "ET"].
Proof.
  destruct (@hello_on_letter_page words_codec [] one_page_doc 0 letter_page ∅ [])
    as (s' & pre & post & Hrun & _ & Hnil & Hseq);
    [lia | reflexivity | reflexivity | reflexivity | reflexivity | reflexivity
    | constructor |].
  destruct (Hnil eq_refl) as [-> ->].
  exists s'. split; [exact Hrun | exact Hseq].
Defined.

(** ** Coherence of the session attributes *)

#[local] Instance same_shape_preorder : PreOrder same_shape.
Proof.
  split.
  - by intros s.
  - intros s1 s2 s3 (Hp & Hc & Hi) (Hp' & Hc' & Hi'). repeat split.
    + by rewrite Hp'.
    + by rewrite Hc'.
    + intros ?. by apply Hi, Hi'.
    + intros ?. by apply Hi', Hi.
Qed.

Section Preserves.
Context (R : relation PDFFactory) `{!PreOrder R}.

Lemma preserves_ret {A} (a : A) : preserves R (ret a).
Proof. by intros s. Qed.

Lemma preserves_raise {A} (e : exn) : preserves R (raise (A:=A) e).
Proof. by intros s. Qed.

Lemma preserves_get {A} (field : PDFFactory -> A) : preserves R (get field).
Proof. by intros s. Qed.

Lemma preserves_bind {A B} (m : M A) (k : A -> M B) :
  preserves R m -> (forall a, preserves R (k a)) -> preserves R (bind m k).
Proof.
  intros Hm Hk s. unfold bind. specialize (Hm s).
  destruct (m s) as [[a|e] s1]; cbn in *; [|done].
  trans s1; [done | apply Hk].
Qed.

Lemma preserves_self_page attr : preserves R (self_page attr).
Proof.
  intros s. unfold self_page.
  destruct (page_object s); [|done]. by destruct (_ !! _).
Qed.

Lemma preserves_lift_float o : preserves R (lift_float o).
Proof. destruct o; [apply preserves_ret | apply preserves_raise]. Qed.

Lemma preserves_int_mul_float n x : preserves R (int_mul_float n x).
Proof.
  unfold int_mul_float. apply preserves_bind; [apply preserves_lift_float|].
  intros f. apply preserves_ret.
Qed.

Lemma preserves_num_sub_float n x : preserves R (num_sub_float n x).
Proof.
  destruct n as [z|digits exponent]; cbn; [|apply preserves_raise].
  unfold int_sub_float. apply preserves_bind; [apply preserves_lift_float|].
  intros f. apply preserves_ret.
Qed.

Lemma preserves_new_instruction ops op : preserves R (new_instruction ops op).
Proof.
  unfold new_instruction.
  destruct (forallb operand_ok ops); [apply preserves_ret | apply preserves_raise].
Qed.
End Preserves.

Ltac preserves_step :=
  first
    [ apply preserves_ret; apply _
    | apply preserves_raise; apply _
    | apply preserves_get; apply _
    | apply preserves_self_page; apply _
    | apply preserves_lift_float; apply _
    | apply preserves_int_mul_float; apply _
    | apply preserves_num_sub_float; apply _
    | apply preserves_new_instruction; apply _
    | apply preserves_bind; [apply _ | | intros ?] ].

Lemma shape_set_pdf_object d : preserves same_shape (set_pdf_object d).
Proof. by intros s. Qed.

Lemma shape_assert_page_is_open : preserves same_shape _assert_page_is_open.
Proof.
  unfold _assert_page_is_open. preserves_step; [preserves_step|].
  destruct a; preserves_step.
Qed.

Lemma shape_update_self_page attr f : preserves same_shape (update_self_page attr f).
Proof.
  intros s. unfold update_self_page.
  destruct (page_object s) eqn:Hr; [|done]. destruct (_ !! _); [|done].
  repeat split; cbn; by rewrite ?Hr.
Qed.

Lemma shape_add_font font : preserves same_shape (_add_font font).
Proof.
  unfold _add_font. preserves_step; [apply shape_assert_page_is_open|].
  preserves_step.
  { destruct font as [key|f]; [destruct (BaseFont_getitem key)|]; preserves_step. }
  preserves_step; [preserves_step|].
  destruct (Font _) as [fonts|]; [|preserves_step].
  destruct (decide _); [preserves_step|].
  unfold make_indirect, add_resource.
  repeat first [apply shape_set_pdf_object | apply shape_update_self_page
               | preserves_step].
Qed.

Lemma shape_get_page_dimension : preserves same_shape get_page_dimension.
Proof.
  unfold get_page_dimension. preserves_step; [apply shape_assert_page_is_open|].
  preserves_step; [preserves_step|]. destruct (MediaBox _); preserves_step.
Qed.

Lemma shape_insert_new_instructions new :
  preserves same_shape (_insert_new_instructions new).
Proof.
  intros s. unfold _insert_new_instructions, bind, get.
  destruct (_page_instructions s) as [l|] eqn:Hpi; cbn; [|done].
  destruct (scan_loop 0 l 0); cbn; [|done].
  repeat split; cbn; rewrite ?Hpi; by eexists.
Qed.

Lemma shape_add_text text l t size font :
  preserves same_shape (add_text text l t size font).
Proof.
  unfold add_text. preserves_step; [apply shape_get_page_dimension|].
  destruct a as [[[? ?] ?] y_top].
  unfold _add_text_xy_points, _make_text_instructions.
  repeat first [apply shape_add_font | apply shape_insert_new_instructions
               | preserves_step].
Qed.

Lemma same_shape_coherent s s' : same_shape s s' -> coherent s -> coherent s'.
Proof.
  intros (Hp & Hc & Hi) [(?&?&Hn)|(?&?&?)]; [left|right]; repeat split;
    rewrite ?Hp, ?Hc; try done; [|by apply Hi].
  destruct (_page_instructions s') eqn:Hs'; [|done].
  destruct (proj1 Hi) as [? Hx]; [by eexists|]. by rewrite Hn in Hx.
Qed.

Lemma close_page_coherent `{Pikepdf} s : coherent s -> coherent (_close_page s).2.
Proof.
  intros Hs. destruct s as [b d po cp pi].
  unfold _close_page, _assert_page_is_open, update_self_page, self_page.
  run_method.
  destruct po as [r|]; cbn; [|done].
  destruct pi as [l|]; cbn; [|done].
  destruct (unparse_content_stream l); cbn; [|done].
  destruct (pages d !! r); cbn; [|done].
  left. by repeat split.
Qed.

Lemma open_page_ok_Open `{Pikepdf} page_ix s :
  (_open_page page_ix s).1 = Ok tt -> Open (_open_page page_ix s).2.
Proof.
  destruct s as [b d po cp pi].
  unfold _open_page, current_page, pages_getitem, self_page. run_method.
  destruct cp; cbn; [done|].
  repeat (destruct (decide _); cbn); try done;
    destruct (pages d !! _); cbn; try done;
    destruct (parse_content_stream _); cbn; try done;
    intros _; repeat split; by eexists.
Qed.

(** A call that returns normally takes a coherent session to a coherent
    session, and so does every failing call other than [_open_page]. *)
Lemma call_keeps_coherence `{Pikepdf} (c : call) (s : PDFFactory) :
  coherent s ->
  (do_call c s).1 = Ok tt \/ (forall page_ix, c ≠ CallOpenPage page_ix) ->
  coherent (do_call c s).2.
Proof.
  intros Hs Hc. destruct c as [page_ix| |font|text l t size font|text l t size font|];
    cbn [do_call].
  - destruct Hc as [Hc|Hc]; [|by destruct (Hc page_ix)].
    right. by apply open_page_ok_Open.
  - by apply close_page_coherent.
  - apply (same_shape_coherent s); [|done].
    apply (preserves_bind same_shape); [apply shape_add_font|].
    intros ?. preserves_step.
  - apply (same_shape_coherent s); [|done]. apply shape_add_text.
  - apply (same_shape_coherent s); [|done]. apply shape_add_text.
  - apply (same_shape_coherent s); [|done].
    apply (preserves_bind same_shape); [apply shape_get_page_dimension|].
    intros ?. preserves_step.
Qed.

(** ** Where the code departs from its documentation *)

(** C1: on the sequence BT Tf Tm Tj ET, whose last ET has index 4,
    [_insert_new_instructions] puts the first instruction of the new block
    at index 4, in front of that ET, and the old ET ends up behind the new
    block; the block does not start at index 5, one past the last ET. *)
Theorem insert_lands_before_last_ET :
  let s' := (_insert_new_instructions second_block (open_session first_block)).2 in
  first_block !! 4%nat = Some (CSI [] "ET")
  /\ scan_ET 0 first_block 0 = 4%nat
  /\ _page_instructions s'
     = Some (take 4 first_block ++ second_block ++ [CSI [] "ET"])
  /\ _page_instructions s' ≠ Some (first_block ++ second_block).
Proof.
  cbn. repeat split. discriminate.
Qed.

(** C2: [add_text_cm] multiplies the centimetres by 2.54.  For 2.54 cm,
    which is one inch, it places the text at 72 * (2.54 * 2.54) points from
    the left, where [add_text] with 2.54 / 2.54 = 1.0 inch places it at 72
    points; the two instruction sequences differ. *)
Theorem add_text_cm_multiplies_by_2_54 :
  let s := open_session [] in
  let by_cm := add_text_cm "Hello" 2.54 2.54 11 (FontStr "timesroman") s in
  let by_inch :=
    add_text "Hello" (2.54 / 2.54) (2.54 / 2.54) 11 (FontStr "timesroman") s in
  _page_instructions by_cm.2
  = Some (hello_block (OName "/Times-Roman")
            (72 * (2.54 * 2.54)) (792 - 72 * (2.54 * 2.54)))
  /\ _page_instructions by_inch.2
     = Some (hello_block (OName "/Times-Roman") 72 720)
  /\ (72 <? 72 * (2.54 * 2.54))%float = true
  /\ _page_instructions by_cm.2 ≠ _page_instructions by_inch.2.
Proof.
  repeat split; try (vm_compute; reflexivity).
  intros Heq.
  apply (f_equal (fun o =>
    match o with
    | Some [_; _; CSI [_; _; _; _; OReal x; _] _; _; _] => (x <? 100)%float
    | _ => false
    end)) in Heq.
  vm_compute in Heq. discriminate Heq.
Qed.

(** C3: for every byte string and whatever the collaborator would do with
    it, [__init__] raises [AttributeError] for the attribute [pdf_path],
    which line 34 reads and nothing assigns; no session object is built. *)
Theorem init_raises_AttributeError `{Pikepdf} (b : bytes) :
  __init__ b = Raise (AttributeError "pdf_path").
Proof. reflexivity. Qed.

(** C4: on an open page without a Times-Roman resource, the first
    [_add_font "timesroman"] registers the font and returns its name; the
    second call leaves the session unchanged, with the one entry in the
    font table, but returns [None] instead of the name. *)
Theorem add_font_twice_returns_None :
  let first := _add_font (FontStr "timesroman") (open_session []) in
  let second := _add_font (FontStr "timesroman") first.2 in
  first.1 = Ok (OName "/Times-Roman")
  /\ (Font <$> pages (pdf_object first.2) !! 0%nat)
     = Some (Some {["/Times-Roman" := font_dict_of timesroman]})
  /\ second.2 = first.2
  /\ second.1 = Ok ONone.
Proof. vm_compute. repeat split. Qed.

(** C10: on a closed session over a one-page document, [_open_page 1]
    raises [IndexError] after line 80 has assigned [_current_page]: the
    session is left with [_current_page] set and [page_object] and
    [_page_instructions] still [None].  From then on [_open_page] reports a
    page as already open while [_close_page] reports that none is. *)
Theorem failed_open_page_splits_the_guards :
  let s0 := closed_session [] one_page_doc in
  let s1 := (@_open_page words_codec 1 s0).2 in
  (@_open_page words_codec 1 s0).1 = Raise IndexError
  /\ reachable (H:=words_codec) s1
  /\ _current_page s1 = Some 1%Z
  /\ page_object s1 = None
  /\ _page_instructions s1 = None
  /\ ¬ coherent s1
  /\ (@_open_page words_codec 0 s1).1 = Raise (PDFQuickTextError already_open_msg)
  /\ (@_close_page words_codec s1).1 = Raise (PDFQuickTextError no_page_msg).
Proof.
  cbn. repeat split.
  - by exists [], one_page_doc, [CallOpenPage 1].
  - intros [(_ & Hcp & _)|([? Hpo] & _)]; cbn in *; discriminate.
Qed.

(** C5: on an open US-Letter page whose media box is written with reals
    (top edge 792.0, a [Decimal]), [_add_font "comicsans"] raises the
    [KeyError] that names the key and changes nothing, but
    [add_text "Hello" 1.0 1.0 11.0 "comicsans"] raises [TypeError] from the
    subtraction of line 170, before the font is looked at: the call with
    the unknown key does not fail with the unknown-font error. *)
Theorem unknown_font_on_real_media_box :
  let s := session_of real_letter_page in
  _add_font (FontStr "comicsans") s
  = (Raise (KeyError [FRepr "comicsans"; FLit " is not a BaseFont enum key"]), s)
  /\ get_page_dimension s
     = (Ok (PyInt 0, PyInt 0, PyDecimal 6120 (-1), PyDecimal 7920 (-1)), s)
  /\ add_text "Hello" 1 1 11 (FontStr "comicsans") s = (Raise TypeError, s)
  /\ add_text "Hello" 1 1 11 (FontStr "comicsans") s
     ≠ (Raise (KeyError [FRepr "comicsans"; FLit " is not a BaseFont enum key"]), s).
Proof.
  cbn. repeat split. discriminate.
Qed.

(** C6: on a blank US-Letter page (media box (0, 0, 612, 792), resources
    without a font dictionary, no instructions), [_open_page 0] succeeds
    and [add_text "Hello" 1.0 1.0 11.0 "timesroman"] then raises
    [AttributeError] on line 55: nothing is registered and the instruction
    sequence stays empty, so the five instructions are not in it. *)
Theorem hello_on_blank_page_raises :
  let s0 := closed_session [] blank_doc in
  let s1 := (@_open_page words_codec 0 s0).2 in
  (@_open_page words_codec 0 s0).1 = Ok tt
  /\ open_on s1 blank_letter_page
  /\ _page_instructions s1 = Some []
  /\ add_text "Hello" 1 1 11 (FontStr "timesroman") s1
     = (Raise (AttributeError "/Font"), s1)
  /\ _page_instructions (add_text "Hello" 1 1 11 (FontStr "timesroman") s1).2
     ≠ Some (hello_block (OName "/Times-Roman") 72 720).
Proof.
  cbn. split; [done|]. split; [by exists 0%nat|]. split; [done|].
  split; [|discriminate]. vm_compute. reflexivity.
Qed.

(** ** The splice point *)



(** X2: on a loaded instruction list whose operators are all UTF-8,
    [_insert_new_instructions] succeeds and changes nothing but the list,
    which it cuts in two and joins again around the new block: every old
    instruction is kept, in its order. *)
Theorem insert_keeps_old_instructions (s : PDFFactory)
    (l new : list ContentStreamInstruction) :
  _page_instructions s = Some l ->
  Forall decodable l ->
  exists pre post,
    l = pre ++ post
    /\ _insert_new_instructions new s
       = (Ok tt, with_instructions (pre ++ new ++ post) s).
Proof.
  intros Hl Hdec. exists (take (scan_ET 0 l 0) l), (drop (scan_ET 0 l 0) l).
  split; [by rewrite take_drop|]. by apply insert_decodable.
Qed.

Lemma insert_keeps_old_instructions_witness :
  exists pre post,
    stream_instructions = pre ++ post
    /\ _insert_new_instructions second_block stream_session
       = (Ok tt, with_instructions (pre ++ second_block ++ post) stream_session).
Proof.
  apply (insert_keeps_old_instructions stream_session stream_instructions).
  - reflexivity.
  - repeat constructor.
Defined.

(** X3: when the loaded operators are all UTF-8 and none is an ET, the
    new block goes in front of all the instructions. *)
Theorem insert_without_ET_prepends (s : PDFFactory)
    (l new : list ContentStreamInstruction) :
  _page_instructions s = Some l ->
  Forall decodable l ->
  Forall not_ET l ->
  _insert_new_instructions new s = (Ok tt, with_instructions (new ++ l) s).
Proof.
  intros Hs Hdec Hl. rewrite (insert_decodable s new l Hs Hdec).
  rewrite (scan_ET_none _ _ _ Hl). by rewrite take_0, drop_0.
Qed.

Lemma insert_without_ET_prepends_witness :
  _insert_new_instructions second_block (open_session [CSI [] "q"; CSI [] "Q"])
  = (Ok tt,
     with_instructions (second_block ++ [CSI [] "q"; CSI [] "Q"])
       (open_session [CSI [] "q"; CSI [] "Q"])).
Proof.
  apply insert_without_ET_prepends; [reflexivity | repeat constructor |].
  repeat constructor; discriminate.
Defined.

(** X4: when the loaded list is [pre], an ET, then [post] without any ET,
    and the operators of [pre] and [post] are all UTF-8, the new block
    goes between [pre] and that ET: its first instruction takes the index
    the ET had, and the ET follows the block. *)
Theorem insert_goes_in_front_of_last_ET (s : PDFFactory)
    (pre post new : list ContentStreamInstruction) (et : ContentStreamInstruction) :
  _page_instructions s = Some (pre ++ et :: post) ->
  Forall decodable pre ->
  Forall decodable post ->
  operator et = "ET" ->
  Forall not_ET post ->
  _insert_new_instructions new s
  = (Ok tt, with_instructions (pre ++ new ++ et :: post) s).
Proof.
  intros Hs Hpre Hdec Het Hpost.
  assert (Hall : Forall decodable (pre ++ et :: post)).
  { apply Forall_app. split; [done|]. constructor; [|done].
    unfold decodable. by rewrite Het. }
  rewrite (insert_decodable s new _ Hs Hall).
  rewrite (scan_ET_last _ _ _ Het Hpost).
  by rewrite take_app_length, drop_app_length.
Qed.

Lemma insert_goes_in_front_of_last_ET_witness :
  _insert_new_instructions second_block stream_session
  = (Ok tt,
     with_instructions
       ([CSI [] "q"; CSI [] "BT"] ++ second_block ++ [CSI [] "ET"; CSI [] "Q"])
       stream_session).
Proof.
  apply (insert_goes_in_front_of_last_ET stream_session
           [CSI [] "q"; CSI [] "BT"] [CSI [] "Q"] second_block (CSI [] "ET"));
    [reflexivity | repeat constructor | repeat constructor | reflexivity |].
  repeat constructor; discriminate.
Defined.

(** X22: when one loaded operator is not UTF-8, [_insert_new_instructions]
    raises [UnicodeDecodeError] from [str(op)] on line 133 and leaves the
    session, with the instruction list, exactly as it was. *)
Theorem insert_undecodable_operator_raises (s : PDFFactory)
    (l new : list ContentStreamInstruction) :
  _page_instructions s = Some l ->
  Exists (fun ins => utf8_valid (operator ins) = false) l ->
  _insert_new_instructions new s = (Raise UnicodeDecodeError, s).
Proof.
  intros Hs Hbad. unfold _insert_new_instructions. run_method.
  by rewrite Hs, (scan_loop_undecodable _ _ _ Hbad).
Qed.

Lemma insert_undecodable_operator_raises_witness :
  _insert_new_instructions second_block
    (open_session [CSI [] bad_operator; CSI [] "BT"; CSI [] "ET"])
  = (Raise UnicodeDecodeError,
     open_session [CSI [] bad_operator; CSI [] "BT"; CSI [] "ET"]).
Proof.
  apply (insert_undecodable_operator_raises _
           [CSI [] bad_operator; CSI [] "BT"; CSI [] "ET"]); [reflexivity|].
  apply Exists_cons_hd. reflexivity.
Defined.

(** ** The font vocabulary *)

(** X5: [BaseFont[key]] finds a member exactly when [key] is that member's
    name, so each of the fourteen names is found and gives back its own
    member. *)
Theorem BaseFont_getitem_iff (key : string) (f : BaseFont) :
  BaseFont_getitem key = Some f <-> key = name f.
Proof.
  split.
  - apply BaseFont_getitem_Some.
  - intros ->. apply BaseFont_getitem_name.
Qed.

(** X6: two different members have different values, so two different
    fonts never get the same PDF name and resource key. *)
Theorem value_injective (f g : BaseFont) : value f = value g -> f = g.
Proof. destruct f, g; cbn; intros Heq; try reflexivity; discriminate Heq. Qed.

Lemma value_injective_witness : timesroman = timesroman.
Proof. apply value_injective. reflexivity. Defined.

(** X7: passing a member's name as a string is the same as passing the
    member, for [_add_font] and for [add_text], whatever the session. *)
Theorem font_key_same_as_member (s : PDFFactory) (f : BaseFont)
    (text : string) (inches_from_left inches_from_top size : float) :
  _add_font (FontStr (name f)) s = _add_font (FontEnum f) s
  /\ add_text text inches_from_left inches_from_top size (FontStr (name f)) s
     = add_text text inches_from_left inches_from_top size (FontEnum f) s.
Proof.
  split.
  - apply add_font_key, BaseFont_getitem_name.
  - apply add_text_key, BaseFont_getitem_name.
Qed.

(** ** Registering a font *)

Lemma add_font_cases font s :
  (_add_font font s).2 = s
  \/ (exists r pg fonts f,
        page_object s = Some r /\ pages (pdf_object s) !! r = Some pg
        /\ Font pg = Some fonts /\ fonts !! value f = None
        /\ _add_font font s = (Ok (OName (value f)), register_font f r s)).
Proof.
  destruct (page_object s) as [r|] eqn:Hr.
  2:{ left. unfold _add_font, bind at 1. by rewrite (assert_open_raises s Hr). }
  rewrite <- Hr.
  assert (Henum : forall f,
    (_add_font (FontEnum f) s).2 = s
    \/ (exists r pg fonts f',
          page_object s = Some r /\ pages (pdf_object s) !! r = Some pg
          /\ Font pg = Some fonts /\ fonts !! value f' = None
          /\ _add_font (FontEnum f) s = (Ok (OName (value f')), register_font f' r s))).
  { intros f. destruct (pages (pdf_object s) !! r) as [pg|] eqn:Hpg.
    - destruct (Font pg) as [fonts|] eqn:Hfonts.
      + destruct (fonts !! value f) eqn:Hf.
        * left. rewrite (add_font_registered s pg fonts f);
            [done | by exists r | done | by eexists].
        * right. exists r, pg, fonts, f.
          by rewrite (add_font_fresh s r pg fonts f).
      + left. rewrite (add_font_no_dictionary s pg f); [done | by exists r | done].
    - left. unfold _add_font, bind at 1. rewrite (assert_open_ok s r Hr).
      unfold bind at 1; cbn. unfold bind at 1, self_page. by rewrite Hr, Hpg. }
  destruct font as [key|f]; [|apply Henum].
  destruct (BaseFont_getitem key) as [f|] eqn:Hkey.
  - rewrite (add_font_key s key f Hkey). apply Henum.
  - left. by rewrite (add_font_unknown_key s r key Hr Hkey).
Qed.

(** X8: on an open page whose resources have a font dictionary without an
    entry for the font's name, [_add_font] returns that name and adds one
    entry under it, a Type1 font dictionary with this base font; the other
    entries of the dictionary, the page's media box and contents, the
    other pages and the session attributes are as before, and the
    document's pool of indirect objects gains this one dictionary. *)
Theorem add_font_registers_Type1 (s : PDFFactory) (r : nat) (pg : page)
    (fonts : gmap string font_dict) (f : BaseFont) :
  page_object s = Some r ->
  pages (pdf_object s) !! r = Some pg ->
  Font pg = Some fonts ->
  fonts !! value f = None ->
  exists s' pg' fonts',
    _add_font (FontEnum f) s = (Ok (OName (value f)), s')
    /\ pages (pdf_object s') !! r = Some pg'
    /\ Font pg' = Some fonts'
    /\ fonts' !! value f
       = Some {| Type_ := "/Font"; Subtype_ := "/Type1"; BaseFont_ := value f |}
    /\ (forall n, n ≠ value f -> fonts' !! n = fonts !! n)
    /\ size fonts' = S (size fonts)
    /\ MediaBox pg' = MediaBox pg /\ Contents pg' = Contents pg
    /\ (forall r', r' ≠ r -> pages (pdf_object s') !! r' = pages (pdf_object s) !! r')
    /\ indirect_objects (pdf_object s')
       = indirect_objects (pdf_object s)
         ++ [{| Type_ := "/Font"; Subtype_ := "/Type1"; BaseFont_ := value f |}]
    /\ page_object s' = page_object s /\ _current_page s' = _current_page s
    /\ _page_instructions s' = _page_instructions s.
Proof.
  intros Hr Hpg Hfonts Hfresh.
  exists (register_font f r s), (with_font f pg),
    (<[value f := font_dict_of f]> fonts).
  split; [by apply (add_font_fresh s r pg fonts f)|]. cbn.
  split; [by rewrite list_lookup_alter_eq, Hpg|].
  split; [by rewrite Hfonts|].
  split; [apply lookup_insert_eq|].
  split; [intros n Hn; by apply lookup_insert_ne|].
  split; [by apply map_size_insert_None|].
  repeat split. intros r' Hr'. by apply list_lookup_alter_ne.
Qed.

Lemma add_font_registers_Type1_witness :
  exists s' pg' fonts',
    _add_font (FontEnum timesbold) stream_session = (Ok (OName "/Times-Bold"), s')
    /\ pages (pdf_object s') !! 1%nat = Some pg'
    /\ Font pg' = Some fonts'
    /\ fonts' !! "/Times-Bold"
       = Some {| Type_ := "/Font"; Subtype_ := "/Type1"; BaseFont_ := "/Times-Bold" |}
    /\ fonts' !! "/Helvetica" = Some (font_dict_of helvetica)
    /\ size fonts' = 2%nat.
Proof.
  destruct (add_font_registers_Type1 stream_session 1 stream_page
              {[ "/Helvetica" := font_dict_of helvetica ]} timesbold)
    as (s' & pg' & fonts' & Hrun & Hpg' & Hfonts' & Hnew & Hold & Hsize & _);
    [reflexivity | reflexivity | reflexivity | reflexivity |].
  exists s', pg', fonts'. split; [exact Hrun|]. split; [exact Hpg'|].
  split; [exact Hfonts'|]. split; [exact Hnew|]. split; [|exact Hsize].
  rewrite Hold; [reflexivity | discriminate].
Defined.

(** X23: on an open page whose resources have no font dictionary,
    [_add_font] with a member raises [AttributeError] on line 55 and
    registers nothing, and so does [add_text] with that font when the
    page's top edge is an integer that converts to [float]; the session is
    left exactly as it was. *)
Theorem add_font_without_font_dictionary (s : PDFFactory) (pg : page)
    (f : BaseFont) :
  open_on s pg ->
  Font pg = None ->
  _add_font (FontEnum f) s = (Raise (AttributeError "/Font"), s)
  /\ (forall y, page_y_top pg = PyInt y -> is_Some (py_float y) ->
      forall text inches_from_left inches_from_top size,
        add_text text inches_from_left inches_from_top size (FontEnum f) s
        = (Raise (AttributeError "/Font"), s)).
Proof.
  intros Hopen Hfonts.
  pose proof (add_font_no_dictionary s pg f Hopen Hfonts) as Hfont.
  split; [exact Hfont|].
  intros y Htop [yt Hyt] text l t size.
  rewrite (add_text_int_top s pg y yt); [|done..].
  unfold _add_text_xy_points, _make_text_instructions, bind. by rewrite Hfont.
Qed.

Lemma add_font_without_font_dictionary_witness :
  _add_font (FontEnum helvetica) (session_of blank_letter_page)
  = (Raise (AttributeError "/Font"), session_of blank_letter_page)
  /\ add_text "Hello" 1 1 11 (FontEnum helvetica) (session_of blank_letter_page)
     = (Raise (AttributeError "/Font"), session_of blank_letter_page).
Proof.
  destruct (add_font_without_font_dictionary (session_of blank_letter_page)
              blank_letter_page helvetica) as [Hfont Htext].
  - exists 0%nat. split; reflexivity.
  - reflexivity.
  - split; [exact Hfont|]. apply (Htext 792%Z); [reflexivity|].
    rewrite py_float_792. by eexists.
Defined.

(** ** What placing text never touches *)

#[local] Instance fonts_grow_preorder : PreOrder fonts_grow.
Proof.
  split.
  - intros [fonts|]; cbn; done.
  - intros [f1|] [f2|] [f3|]; cbn; try done. intros H12 H23. by trans f2.
Qed.

#[local] Instance page_grows_preorder : PreOrder page_grows.
Proof.
  split.
  - intros pg. by repeat split.
  - intros p1 p2 p3 (Hm & Hc & Hf) (Hm' & Hc' & Hf'). repeat split.
    + by rewrite Hm'.
    + by rewrite Hc'.
    + by trans (Font p2).
Qed.

#[local] Instance document_grows_preorder : PreOrder document_grows.
Proof.
  split.
  - intros s. split; [done|]. split; [|done].
    apply Forall2_same_length_lookup. split; [done|].
    intros i x y Hx Hy. by simplify_eq.
  - intros s1 s2 s3 (Hb & Hp & Hi) (Hb' & Hp' & Hi').
    split; [|split].
    + by rewrite Hb'.
    + by trans (pages (pdf_object s2)).
    + by trans (indirect_objects (pdf_object s2)).
Qed.

Lemma grows_register_font s r pg fonts f :
  pages (pdf_object s) !! r = Some pg ->
  Font pg = Some fonts ->
  fonts !! value f = None ->
  document_grows s (register_font f r s).
Proof.
  intros Hpg Hfonts Hfresh. split; [done|]. split; cbn.
  - apply Forall2_same_length_lookup. split; [by rewrite length_alter|].
    intros i x y Hx Hy. destruct (decide (i = r)) as [->|Hne].
    + rewrite list_lookup_alter_eq, Hx in Hy. cbn in Hy. simplify_eq.
      split; [done|]. split; [done|]. cbn. rewrite Hfonts. cbn.
      by apply insert_subseteq.
    + rewrite list_lookup_alter_ne in Hy by done. by simplify_eq.
  - by apply prefix_app_r.
Qed.

Lemma grows_add_font font : preserves document_grows (_add_font font).
Proof.
  intros s.
  destruct (add_font_cases font s)
    as [->|(r & pg & fonts & f & _ & Hpg & Hfonts & Hf & ->)].
  - done.
  - by apply (grows_register_font s r pg fonts f).
Qed.

Lemma grows_get_page_dimension : preserves document_grows get_page_dimension.
Proof.
  unfold get_page_dimension, _assert_page_is_open.
  preserves_step; [preserves_step; [preserves_step|]|].
  { destruct a; preserves_step. }
  preserves_step; [preserves_step|]. destruct (MediaBox _); preserves_step.
Qed.

Lemma grows_insert_new_instructions new :
  preserves document_grows (_insert_new_instructions new).
Proof.
  intros s. unfold _insert_new_instructions, bind, get.
  destruct (_page_instructions s) as [l|]; cbn; [|done].
  destruct (scan_loop 0 l 0) as [i|e]; cbn; [|done].
  change (document_grows s (with_instructions (take i l ++ new ++ drop i l) s)).
  split; [done|]. split; [|done]. cbn.
  apply Forall2_same_length_lookup. split; [done|].
  intros j x y Hx Hy. by simplify_eq.
Qed.

Lemma grows_add_text text l t size font :
  preserves document_grows (add_text text l t size font).
Proof.
  unfold add_text. preserves_step; [apply grows_get_page_dimension|].
  destruct a as [[[? ?] ?] y_top].
  unfold _add_text_xy_points, _make_text_instructions.
  repeat first [apply grows_add_font | apply grows_insert_new_instructions
               | preserves_step].
Qed.

(** X9: whatever the session and whatever the outcome, [_add_font],
    [add_text], [add_text_cm] and [get_page_dimension] leave [pdf_bytes] as
    it is, keep the number of pages, keep every page's media box and stored
    content stream, keep every font entry that a page had with the value
    it had, and keep the indirect objects the document had. *)
Theorem placing_text_keeps_the_document (s : PDFFactory) :
  (forall font, document_grows s (_add_font font s).2)
  /\ (forall text l t size font, document_grows s (add_text text l t size font s).2)
  /\ (forall text l t size font, document_grows s (add_text_cm text l t size font s).2)
  /\ document_grows s (get_page_dimension s).2.
Proof.
  split; [|split; [|split]].
  - intros font. apply grows_add_font.
  - intros. apply grows_add_text.
  - intros. unfold add_text_cm. apply grows_add_text.
  - apply grows_get_page_dimension.
Qed.

(** ** Placing text on an open page *)

(** X10: on an open page with loaded instructions whose operators are
    UTF-8, a font dictionary without an entry for the font's name and an
    integer top edge, [add_text] succeeds for every text and for every
    size and pair of distances that give finite operands (positions
    outside the page are not refused): the five instructions enter the
    list in one piece between a front and a back part of the old list,
    with x = 72 * inches_from_left and
    y = float(y_top) - 72 * inches_from_top; the page stays open and now
    has a resource for the font. *)
Theorem add_text_places_block (s : PDFFactory) (r : nat) (pg : page)
    (fonts : gmap string font_dict) (l : list ContentStreamInstruction)
    (f : BaseFont) (text : string)
    (inches_from_left inches_from_top size : float) (y : Z) (yt : float) :
  page_object s = Some r ->
  pages (pdf_object s) !! r = Some pg ->
  _page_instructions s = Some l ->
  Forall decodable l ->
  Font pg = Some fonts ->
  fonts !! value f = None ->
  page_y_top pg = PyInt y ->
  py_float y = Some yt ->
  finite_operands (72 * inches_from_left) (yt - 72 * inches_from_top) size = true ->
  exists s' pre post pg' fonts',
    add_text text inches_from_left inches_from_top size (FontEnum f) s = (Ok tt, s')
    /\ l = pre ++ post
    /\ _page_instructions s'
       = Some (pre
               ++ [CSI [] "BT";
                   CSI [OName (value f); OReal size] "Tf";
                   CSI [OInt 1; OInt 0; OInt 0; OInt 1;
                        OReal (72 * inches_from_left);
                        OReal (yt - 72 * inches_from_top)] "Tm";
                   CSI [OString text] "Tj";
                   CSI [] "ET"]
               ++ post)
    /\ page_object s' = Some r
    /\ _current_page s' = _current_page s
    /\ pages (pdf_object s') !! r = Some pg'
    /\ Font pg' = Some fonts'
    /\ is_Some (fonts' !! value f).
Proof.
  intros Hr Hpg Hl Hdec Hfonts Hfresh Htop Hyt Hfin.
  eexists _, (take (scan_ET 0 l 0) l), (drop (scan_ET 0 l 0) l), (with_font f pg),
    (<[value f := font_dict_of f]> fonts).
  split; [by apply (add_text_fresh_font s r pg fonts l f _ _ _ _ y yt)|]. cbn.
  split; [by rewrite take_drop|]. split; [done|]. split; [done|].
  split; [done|]. split; [by rewrite list_lookup_alter_eq, Hpg|].
  cbn. split; [by rewrite Hfonts|]. rewrite lookup_insert_eq. by eexists.
Qed.

Lemma add_text_places_block_witness :
  exists s' pre post,
    add_text "off the page" (-1.5) 100 8 (FontEnum courier) stream_session
    = (Ok tt, s')
    /\ stream_instructions = pre ++ post
    /\ _page_instructions s'
       = Some (pre
               ++ [CSI [] "BT";
                   CSI [OName "/Courier"; OReal 8] "Tf";
                   CSI [OInt 1; OInt 0; OInt 0; OInt 1;
                        OReal (-108); OReal (-6358)] "Tm";
                   CSI [OString "off the page"] "Tj";
                   CSI [] "ET"]
               ++ post).
Proof.
  destruct (add_text_places_block stream_session 1 stream_page
              {[ "/Helvetica" := font_dict_of helvetica ]}
              stream_instructions courier "off the page" (-1.5) 100 8 842 842)
    as (s' & pre & post & pg' & fonts' & Hrun & Hl & Hseq & _);
    [reflexivity | reflexivity | reflexivity | repeat constructor
    | reflexivity | reflexivity | reflexivity
    | vm_compute; reflexivity | vm_compute; reflexivity |].
  exists s', pre, post. split; [exact Hrun|]. split; [exact Hl | exact Hseq].
Defined.

(** X11: on an open page with a font dictionary without an entry for the
    font's name and an integer top edge, an [add_text] call whose size or
    computed x or y is an infinity or a NaN raises [ValueError] while the
    instructions are built, after [_add_font] has run: the font is
    registered on the page although no instruction was inserted. *)
Theorem add_text_not_finite_registers_font (s : PDFFactory) (r : nat)
    (pg : page) (fonts : gmap string font_dict) (f : BaseFont) (text : string)
    (inches_from_left inches_from_top size : float) (y : Z) (yt : float) :
  page_object s = Some r ->
  pages (pdf_object s) !! r = Some pg ->
  Font pg = Some fonts ->
  fonts !! value f = None ->
  page_y_top pg = PyInt y ->
  py_float y = Some yt ->
  finite_operands (72 * inches_from_left) (yt - 72 * inches_from_top) size = false ->
  exists s' pg',
    add_text text inches_from_left inches_from_top size (FontEnum f) s
    = (Raise ValueError, s')
    /\ _page_instructions s' = _page_instructions s
    /\ pages (pdf_object s') !! r = Some pg'
    /\ Font pg' = Some (<[value f := font_dict_of f]> fonts)
    /\ s' ≠ s.
Proof.
  intros Hr Hpg Hfonts Hfresh Htop Hyt Hfin.
  exists (register_font f r s), (with_font f pg). split.
  - rewrite (add_text_int_top s pg y yt); [|by exists r|done..].
    unfold _add_text_xy_points, bind at 1.
    rewrite (make_text_instructions_run s (register_font f r s) _ (OName (value f)));
      [|by apply (add_font_fresh s r pg fonts)|done].
    by rewrite Hfin.
  - cbn. split; [done|]. split; [by rewrite list_lookup_alter_eq, Hpg|].
    split; [by rewrite Hfonts|].
    intros Heq. apply (f_equal (fun s => length (indirect_objects (pdf_object s)))) in Heq.
    cbn in Heq. rewrite length_app in Heq. cbn in Heq. lia.
Qed.

Lemma add_text_not_finite_registers_font_witness :
  exists s' pg',
    add_text "Hello" 1 1 infinity (FontEnum courier) stream_session
    = (Raise ValueError, s')
    /\ _page_instructions s' = Some stream_instructions
    /\ pages (pdf_object s') !! 1%nat = Some pg'
    /\ Font pg'
       = Some (<["/Courier" := font_dict_of courier]>
                 {[ "/Helvetica" := font_dict_of helvetica ]}).
Proof.
  destruct (add_text_not_finite_registers_font stream_session 1 stream_page
              {[ "/Helvetica" := font_dict_of helvetica ]} courier "Hello"
              1 1 infinity 842 842)
    as (s' & pg' & Hrun & Hl & Hpg' & Hfonts' & _);
    [reflexivity | reflexivity | reflexivity | reflexivity | reflexivity
    | vm_compute; reflexivity | vm_compute; reflexivity |].
  exists s', pg'. split; [exact Hrun|]. split; [exact Hl|].
  split; [exact Hpg' | exact Hfonts'].
Defined.



(** X12: [get_page_dimension], [_assert_page_is_open] and the property
    [current_page] never change the session, whether they return or
    raise; [current_page] returns [_current_page] as it is. *)
Theorem queries_leave_the_session (s : PDFFactory) :
  (get_page_dimension s).2 = s
  /\ (_assert_page_is_open s).2 = s
  /\ current_page s = (Ok (_current_page s), s).
Proof.
  assert (Hassert : (_assert_page_is_open s).2 = s).
  { unfold _assert_page_is_open. run_method. by destruct (page_object s). }
  split; [|by split].
  unfold get_page_dimension, _assert_page_is_open, self_page. run_method.
  destruct (page_object s) as [r|] eqn:Hr; cbn; [|done]. rewrite Hr.
  destruct (pages (pdf_object s) !! r) as [pg|]; cbn; [|done].
  by destruct (MediaBox pg).
Qed.

(** ** Opening and closing a page *)

(** X13: [_open_page] with an index from 0 to the last page, on a session
    whose [_current_page] is [None] and a page the collaborator can decode,
    succeeds: [page_object] is that page, [_current_page] the index as
    given, [_page_instructions] the decoded list; the document and the
    bytes are untouched, and [current_page] now returns the index. *)
Theorem open_page_loads_the_page `{Pikepdf} (s : PDFFactory) (page_ix : Z)
    (pg : page) (l : list ContentStreamInstruction) :
  _current_page s = None ->
  (0 <= page_ix)%Z ->
  pages (pdf_object s) !! Z.to_nat page_ix = Some pg ->
  parse_content_stream pg = Some l ->
  exists s',
    _open_page page_ix s = (Ok tt, s')
    /\ open_on s' pg
    /\ page_object s' = Some (Z.to_nat page_ix)
    /\ _page_instructions s' = Some l
    /\ current_page s' = (Ok (Some page_ix), s')
    /\ pdf_object s' = pdf_object s
    /\ pdf_bytes s' = pdf_bytes s.
Proof.
  intros Hcp Hix Hpg Hparse. eexists.
  split; [by apply (open_page_ok s page_ix pg l)|].
  split; [by exists (Z.to_nat page_ix)|]. done.
Qed.

Lemma open_page_loads_the_page_witness :
  exists s',
    @_open_page words_codec 1 (closed_session [] two_page_doc) = (Ok tt, s')
    /\ open_on s' stream_page
    /\ _page_instructions s'
       = Some [CSI [] "q"; CSI [] "BT"; CSI [] "ET"; CSI [] "Q"].
Proof.
  destruct (@open_page_loads_the_page words_codec (closed_session [] two_page_doc)
              1 stream_page stream_instructions)
    as (s' & Hrun & Hopen & _ & Hl & _);
    [reflexivity | lia | reflexivity | reflexivity |].
  exists s'. split; [exact Hrun|]. split; [exact Hopen | exact Hl].
Defined.

(** X14: [_open_page] with an index at or past the number of pages, on a
    session whose [_current_page] is [None], raises [IndexError] (or
    [TypeError], when the index does not fit a 64-bit signed integer) and
    has by then assigned [_current_page]; nothing else is changed, and
    every later [_open_page] raises the already-open error without
    changing the session. *)
Theorem open_page_past_the_end `{Pikepdf} (s : PDFFactory) (page_ix : Z) :
  _current_page s = None ->
  (Z.of_nat (length (pages (pdf_object s))) <= page_ix)%Z ->
  exists s',
    _open_page page_ix s
    = (Raise (if decide (page_ix < 2 ^ 63)%Z then IndexError else TypeError), s')
    /\ _current_page s' = Some page_ix
    /\ page_object s' = page_object s
    /\ _page_instructions s' = _page_instructions s
    /\ pdf_object s' = pdf_object s
    /\ pdf_bytes s' = pdf_bytes s
    /\ (forall later_ix,
         _open_page later_ix s' = (Raise (PDFQuickTextError already_open_msg), s')).
Proof.
  intros Hcp Hix. eexists. split.
  - unfold _open_page, current_page, pages_getitem. run_method.
    rewrite Hcp. cbn. rewrite decide_False by lia. rewrite decide_False by lia.
    destruct (decide (page_ix < 2 ^ 63)%Z).
    + rewrite decide_True by lia. reflexivity.
    + rewrite decide_False by lia. reflexivity.
  - by repeat split.
Qed.

Lemma open_page_past_the_end_witness :
  exists s',
    @_open_page words_codec 2 (closed_session [] two_page_doc)
    = (Raise IndexError, s')
    /\ _current_page s' = Some 2%Z
    /\ page_object s' = None
    /\ @_open_page words_codec 0 s'
       = (Raise (PDFQuickTextError already_open_msg), s').
Proof.
  destruct (@open_page_past_the_end words_codec (closed_session [] two_page_doc) 2)
    as (s' & Hrun & Hcp & Hpo & _ & _ & _ & Hlater); [reflexivity | cbn; lia |].
  exists s'. split; [exact Hrun|]. split; [exact Hcp|].
  split; [exact Hpo | apply Hlater].
Defined.

(** X15: when the collaborator fails to decode the page's content stream,
    [_open_page] lets the failure through after it has assigned
    [_current_page] and [page_object]; [_page_instructions] and the
    document are unchanged, and every later [_open_page] raises the
    already-open error. *)
Theorem open_page_undecodable `{Pikepdf} (s : PDFFactory) (page_ix : Z) (pg : page) :
  _current_page s = None ->
  (0 <= page_ix)%Z ->
  pages (pdf_object s) !! Z.to_nat page_ix = Some pg ->
  parse_content_stream pg = None ->
  exists s',
    _open_page page_ix s = (Raise PdfError, s')
    /\ _current_page s' = Some page_ix
    /\ page_object s' = Some (Z.to_nat page_ix)
    /\ _page_instructions s' = _page_instructions s
    /\ pdf_object s' = pdf_object s
    /\ (forall later_ix,
         _open_page later_ix s' = (Raise (PDFQuickTextError already_open_msg), s')).
Proof.
  intros Hcp Hix Hpg Hparse. eexists. split.
  - unfold _open_page, current_page, pages_getitem, self_page. run_method.
    rewrite Hcp. cbn. apply lookup_lt_Some in Hpg as Hlt.
    rewrite decide_True by lia. cbn. rewrite Hpg, Hparse. reflexivity.
  - by repeat split.
Qed.

Lemma open_page_undecodable_witness :
  exists s',
    @_open_page empty_stream_codec 1 (closed_session [] two_page_doc)
    = (Raise PdfError, s')
    /\ _current_page s' = Some 1%Z
    /\ page_object s' = Some 1%nat
    /\ _page_instructions s' = None.
Proof.
  destruct (@open_page_undecodable empty_stream_codec
              (closed_session [] two_page_doc) 1 stream_page)
    as (s' & Hrun & Hcp & Hpo & Hpi & _);
    [reflexivity | lia | reflexivity | reflexivity |].
  exists s'. split; [exact Hrun|]. split; [exact Hcp|]. split; [exact Hpo | exact Hpi].
Defined.

(** X16: [_close_page] either returns, and then [page_object],
    [_current_page] and [_page_instructions] are all [None], or raises, and
    then the session is exactly as it was: a failed close keeps the page
    open with its instructions. *)
Theorem close_page_all_or_nothing `{Pikepdf} (s : PDFFactory) :
  ((_close_page s).1 = Ok tt /\ Closed (_close_page s).2)
  \/ (exists e, (_close_page s).1 = Raise e /\ (_close_page s).2 = s).
Proof.
  destruct s as [b d po cp pi].
  unfold _close_page, _assert_page_is_open, update_self_page. run_method.
  destruct po as [r|]; cbn; [|right; by eexists].
  destruct pi as [l|]; cbn; [|right; by eexists].
  destruct (unparse_content_stream l); cbn; [|right; by eexists].
  destruct (pages d !! r); cbn; [|right; by eexists].
  left. by repeat split.
Qed.

(** X17: on an open page with loaded instructions that the collaborator
    can encode, [_close_page] stores the encoded bytes as the contents of
    that page (as a PDF string), keeping its media box and fonts, leaves
    every other page, the indirect objects and [pdf_bytes] as they are, and
    ends with no page open. *)
Theorem close_page_stores_the_stream `{Pikepdf} (s : PDFFactory) (r : nat)
    (pg : page) (l : list ContentStreamInstruction) (encoded : bytes) :
  page_object s = Some r ->
  pages (pdf_object s) !! r = Some pg ->
  _page_instructions s = Some l ->
  unparse_content_stream l = Some encoded ->
  exists s',
    _close_page s = (Ok tt, s')
    /\ Closed s'
    /\ pages (pdf_object s') !! r
       = Some {| MediaBox := MediaBox pg; Font := Font pg;
                 Contents := PdfString encoded |}
    /\ (forall r', r' ≠ r -> pages (pdf_object s') !! r' = pages (pdf_object s) !! r')
    /\ length (pages (pdf_object s')) = length (pages (pdf_object s))
    /\ indirect_objects (pdf_object s') = indirect_objects (pdf_object s)
    /\ pdf_bytes s' = pdf_bytes s.
Proof.
  intros Hr Hpg Hl Henc. eexists. split.
  - unfold _close_page, _assert_page_is_open, update_self_page. run_method.
    rewrite Hr. cbn. rewrite Hl. cbn. rewrite Henc. cbn. rewrite Hr. cbn.
    rewrite Hpg. reflexivity.
  - cbn. split; [done|]. split; [by rewrite list_lookup_alter_eq, Hpg|].
    split; [intros r' Hr'; by apply list_lookup_alter_ne|].
    split; [apply length_alter|]. done.
Qed.

Lemma close_page_stores_the_stream_witness :
  exists s',
    @_close_page words_codec stream_session = (Ok tt, s')
    /\ Closed s'
    /\ pages (pdf_object s') !! 1%nat
       = Some {| MediaBox := MediaBox stream_page; Font := Font stream_page;
                 Contents := PdfString (String.list_byte_of_string "q BT ET Q") |}
    /\ pages (pdf_object s') !! 0%nat = Some letter_page.
Proof.
  destruct (@close_page_stores_the_stream words_codec stream_session 1
              stream_page stream_instructions (String.list_byte_of_string "q BT ET Q"))
    as (s' & Hrun & Hclosed & Hpg & Hother & _);
    [reflexivity | reflexivity | reflexivity | reflexivity |].
  exists s'. split; [exact Hrun|]. split; [exact Hclosed|].
  split; [exact Hpg|]. rewrite Hother by discriminate. reflexivity.
Defined.

(** X18: [_open_page] never changes the document or the bytes, whatever
    the index and whether it returns or raises. *)
Theorem open_page_keeps_the_document `{Pikepdf} (s : PDFFactory) (page_ix : Z) :
  pdf_object (_open_page page_ix s).2 = pdf_object s
  /\ pdf_bytes (_open_page page_ix s).2 = pdf_bytes s.
Proof.
  destruct s as [b d po cp pi].
  unfold _open_page, current_page, pages_getitem, self_page. run_method.
  destruct cp; cbn; [done|].
  repeat (destruct (decide _); cbn); try done;
    destruct (pages d !! _); cbn; try done;
    by destruct (parse_content_stream _).
Qed.

(** X19: opening a page that holds a content stream and closing it with
    no edit in between does not give the document back: the page comes out
    with a PDF string, the encoding of the decoded list, in place of its
    stream; its media box and fonts, the other pages and the indirect
    objects are as before, and no page is open. *)
Theorem open_close_stores_a_string `{Pikepdf} (b : bytes) (doc : document)
    (page_ix : Z) (pg : page) (data : bytes)
    (l : list ContentStreamInstruction) (encoded : bytes) :
  (0 <= page_ix)%Z ->
  pages doc !! Z.to_nat page_ix = Some pg ->
  Contents pg = Stream data ->
  parse_content_stream pg = Some l ->
  unparse_content_stream l = Some encoded ->
  exists s',
    (_open_page page_ix ;; _close_page) (closed_session b doc) = (Ok tt, s')
    /\ Closed s'
    /\ pages (pdf_object s') !! Z.to_nat page_ix
       = Some {| MediaBox := MediaBox pg; Font := Font pg;
                 Contents := PdfString encoded |}
    /\ (forall r', r' ≠ Z.to_nat page_ix ->
          pages (pdf_object s') !! r' = pages doc !! r')
    /\ indirect_objects (pdf_object s') = indirect_objects doc
    /\ pdf_object s' ≠ doc.
Proof.
  intros Hix Hpg Hstream Hparse Henc. eexists. split.
  - unfold bind at 1.
    rewrite (open_page_ok (closed_session b doc) page_ix pg l); [|done..].
    unfold _close_page, _assert_page_is_open, update_self_page. run_method.
    rewrite Henc. cbn. rewrite Hpg. reflexivity.
  - cbn. split; [done|]. split; [by rewrite list_lookup_alter_eq, Hpg|].
    split; [intros r' Hr'; by apply list_lookup_alter_ne|].
    split; [done|].
    intros Heq. apply (f_equal (fun d => Contents <$> pages d !! Z.to_nat page_ix)) in Heq.
    cbn in Heq. rewrite list_lookup_alter_eq, Hpg in Heq. cbn in Heq.
    rewrite Hstream in Heq. discriminate Heq.
Qed.

Lemma open_close_stores_a_string_witness :
  exists s',
    (@_open_page words_codec 1 ;; @_close_page words_codec)
      (closed_session [] two_page_doc) = (Ok tt, s')
    /\ pages (pdf_object s') !! 1%nat
       = Some {| MediaBox := MediaBox stream_page; Font := Font stream_page;
                 Contents := PdfString (String.list_byte_of_string "q BT ET Q") |}
    /\ pdf_object s' ≠ two_page_doc.
Proof.
  destruct (@open_close_stores_a_string words_codec [] two_page_doc 1 stream_page
              (String.list_byte_of_string "q BT ET Q") stream_instructions
              (String.list_byte_of_string "q BT ET Q"))
    as (s' & Hrun & _ & Hpg & _ & _ & Hne);
    [lia | reflexivity | reflexivity | reflexivity | reflexivity |].
  exists s'. split; [exact Hrun|]. split; [exact Hpg | exact Hne].
Defined.

(** X20: opening a page, placing a text with a font that the page's font
    dictionary does not have, and closing, on a page with UTF-8 operators
    and an integer top edge and with finite operands: when the
    collaborator encodes the edited list, the page ends with that encoding
    as its contents (a PDF string) and with the font in its font
    dictionary, the other pages are untouched, one indirect object joined
    the document, no page is open, and [pdf_bytes] still holds the input
    bytes. *)
Theorem open_add_text_close `{Pikepdf} (b : bytes) (doc : document)
    (page_ix : Z) (pg : page) (fonts : gmap string font_dict)
    (l : list ContentStreamInstruction)
    (f : BaseFont) (text : string) (inches_from_left inches_from_top size : float)
    (y : Z) (yt : float) (encoded : bytes) :
  (0 <= page_ix)%Z ->
  pages doc !! Z.to_nat page_ix = Some pg ->
  parse_content_stream pg = Some l ->
  Forall decodable l ->
  Font pg = Some fonts ->
  fonts !! value f = None ->
  page_y_top pg = PyInt y ->
  py_float y = Some yt ->
  finite_operands (72 * inches_from_left) (yt - 72 * inches_from_top) size = true ->
  unparse_content_stream
    (take (scan_ET 0 l 0) l
     ++ text_block (OName (value f)) text
          (72 * inches_from_left) (yt - 72 * inches_from_top) size
     ++ drop (scan_ET 0 l 0) l) = Some encoded ->
  exists s',
    (_open_page page_ix ;;
     add_text text inches_from_left inches_from_top size (FontEnum f) ;;
     _close_page) (closed_session b doc) = (Ok tt, s')
    /\ Closed s'
    /\ pdf_bytes s' = b
    /\ pages (pdf_object s') !! Z.to_nat page_ix
       = Some {| MediaBox := MediaBox pg;
                 Font := Some (<[value f := font_dict_of f]> fonts);
                 Contents := PdfString encoded |}
    /\ (forall r', r' ≠ Z.to_nat page_ix ->
          pages (pdf_object s') !! r' = pages doc !! r')
    /\ indirect_objects (pdf_object s') = indirect_objects doc ++ [font_dict_of f].
Proof.
  intros Hix Hpg Hparse Hdec Hfonts Hfresh Htop Hyt Hfin Henc. eexists. split.
  - unfold bind at 1.
    rewrite (open_page_ok (closed_session b doc) page_ix pg l); [|done..].
    unfold bind at 1.
    rewrite (add_text_fresh_font _ (Z.to_nat page_ix) pg fonts l f text
               inches_from_left inches_from_top size y yt); [|done..].
    unfold _close_page, _assert_page_is_open, update_self_page. run_method.
    unfold text_block in Henc. cbn in Henc. rewrite Henc. cbn.
    rewrite list_lookup_alter_eq, Hpg. reflexivity.
  - cbn. split; [done|]. split; [done|].
    split; [by rewrite !list_lookup_alter_eq, Hpg; cbn; rewrite Hfonts|].
    split; [|done]. intros r' Hr'. by rewrite !list_lookup_alter_ne.
Qed.

Lemma open_add_text_close_witness :
  exists s' pg' data,
    (@_open_page outline_codec 1 ;;
     add_text "Hi" 1 1 11 (FontEnum timesroman) ;;
     @_close_page outline_codec) (closed_session [] two_page_doc) = (Ok tt, s')
    /\ Closed s'
    /\ pages (pdf_object s') !! 1%nat = Some pg'
    /\ Contents pg' = PdfString data
    /\ String.string_of_list_byte data
       = "q BT BT /Times-Roman real Tf int int int int real real Tm (Hi) Tj ET ET Q"
    /\ Font pg'
       = Some (<["/Times-Roman" := font_dict_of timesroman]>
                 {[ "/Helvetica" := font_dict_of helvetica ]})
    /\ pages (pdf_object s') !! 0%nat = Some letter_page.
Proof.
  destruct (@open_add_text_close outline_codec [] two_page_doc 1 stream_page
              {[ "/Helvetica" := font_dict_of helvetica ]}
              stream_instructions timesroman "Hi" 1 1 11 842 842
              (String.list_byte_of_string
                 "q BT BT /Times-Roman real Tf int int int int real real Tm (Hi) Tj ET ET Q"))
    as (s' & Hrun & Hclosed & _ & Hpg & Hother & _);
    [lia | reflexivity | reflexivity | repeat constructor | reflexivity
    | reflexivity | reflexivity | vm_compute; reflexivity
    | vm_compute; reflexivity | vm_compute; reflexivity |].
  eexists s', _, _.
  split; [exact Hrun|]. split; [exact Hclosed|]. split; [exact Hpg|].
  split; [reflexivity|]. split; [vm_compute; reflexivity|].
  split; [reflexivity|].
  rewrite Hother by discriminate. reflexivity.
Defined.

(** ** The session along a run of calls *)

(** X21: starting from a session whose three page attributes are all
    [None] or all set, a run of calls in which no [_open_page] raises ends
    in such a session again, whatever the other calls raise; there the two
    guards agree: [_current_page] is set exactly when [page_object] is. *)
Theorem run_without_failed_open_is_coherent `{Pikepdf} (cs : list call)
    (s : PDFFactory) :
  coherent s ->
  no_failed_open cs s ->
  coherent (run_calls cs s)
  /\ (is_Some (_current_page (run_calls cs s))
      <-> is_Some (page_object (run_calls cs s))).
Proof.
  intros Hs Hrun.
  assert (Hcoh : coherent (run_calls cs s)).
  { revert s Hs Hrun. induction cs as [|c cs IH]; intros s Hs Hrun; [done|].
    destruct Hrun as [Hc Hrest]. cbn. apply IH; [|done].
    by apply call_keeps_coherence. }
  split; [done|].
  destruct Hcoh as [(Hpo & Hcp & _)|(Hpo & Hcp & _)].
  - rewrite Hpo, Hcp. done.
  - done.
Qed.

Lemma run_without_failed_open_is_coherent_witness :
  coherent
    (run_calls (H:=words_codec)
       [CallAddText "early" 1 1 11 (FontStr "timesroman");
        CallOpenPage 1;
        CallAddText "Hello" 1 1 11 (FontStr "comicsans");
        CallAddText "Hello" 1 1 11 (FontStr "timesroman");
        CallGetPageDimension]
       (closed_session [] two_page_doc)).
Proof.
  apply (@run_without_failed_open_is_coherent words_codec).
  - left. by repeat split.
  - cbn. repeat split; first [by left | right; discriminate].
Defined.
